(** * OllamaBot: conversation-context assembly and the per-guild settings store

    A shallow embedding of the parts of the bot that carry data-structure
    logic:

    - [utils.reply_history]: the bounded walk along a message's reply chain;
    - the body of [OllamaBot.on_message]: merging the reply chain, the channel
      history window and the trigger message, de-duplicating by message id,
      sorting by creation time, and choosing how the model's answer is sent;
    - [settings_manager.GuildSettings] and [settings_manager.SettingsManager]:
      self-notifying settings objects, lazy creation, [load] and [save].

    Python objects are modelled as the code uses them: an insertion-ordered
    [dict] is an association list with unique keys, an instance with
    [__slots__] is a finite map from slot names to values, instances live in
    a heap and are passed around by reference, and exceptions are an explicit
    outcome of every effectful operation. *)

From stdpp Require Import base decidable option list sorting strings gmap.
From Stdlib Require Import ZArith Lia Ascii.
From Stdlib Require DecimalString DecimalZ DecimalFacts.

Local Open Scope Z_scope.
Local Set Warnings "-register-all".
Local Set Default Proof Using "Type".

(** ** Python's insertion-ordered [dict] *)

Module PyDict.
Section Dict.
Context {K V : Type} `{EqDecision K}.

(** [d[k] = v]: an existing key keeps its position and takes the new value,
    a new key goes to the end. *)
Fixpoint set (k : K) (v : V) (d : list (K * V)) : list (K * V) :=
  match d with
  | [] => [(k, v)]
  | (k', v') :: d' =>
      if decide (k = k') then (k, v) :: d' else (k', v') :: set k v d'
  end.

Fixpoint get (k : K) (d : list (K * V)) : option V :=
  match d with
  | [] => None
  | (k', v') :: d' => if decide (k = k') then Some v' else get k d'
  end.

(** Storing a run of pairs into a dict, one after the other. *)
Definition store_all (acc l : list (K * V)) : list (K * V) :=
  foldl (fun d kv => set kv.1 kv.2 d) acc l.

(** [{key(x): val(x) for x in l}] and [dict(pairs)]. *)
Definition of_pairs (l : list (K * V)) : list (K * V) := store_all [] l.

Definition keys (d : list (K * V)) : list K := d.*1.
Definition values (d : list (K * V)) : list V := d.*2.
End Dict.
End PyDict.

(** ** Discord messages, as far as the pipeline reads them *)

Inductive MessageType : Type :=
  | MT_default
  | MT_reply
  | MT_other (code : Z).

Global Instance MessageType_eq_dec : EqDecision MessageType.
Proof. solve_decision. Defined.

(** [Message.reference] is [None] or a [MessageReference], whose
    [message_id] is optional and whose [resolved] is [None], a [Message] or a
    [DeletedReferencedMessage]. *)
Inductive Message : Type :=
  | Msg (id : Z) (created_at : Z) (type : MessageType) (content : string)
        (reference : option MessageReference)
with MessageReference : Type :=
  | Ref (message_id : option Z) (resolved : option ResolvedReference)
with ResolvedReference : Type :=
  | ResolvedMessage (m : Message)
  | DeletedReferencedMessage.

Definition msg_id (m : Message) : Z :=
  match m with Msg i _ _ _ _ => i end.
Definition created_at (m : Message) : Z :=
  match m with Msg _ t _ _ _ => t end.
Definition msg_type (m : Message) : MessageType :=
  match m with Msg _ _ ty _ _ => ty end.
Definition msg_content (m : Message) : string :=
  match m with Msg _ _ _ c _ => c end.
Definition reference (m : Message) : option MessageReference :=
  match m with Msg _ _ _ _ r => r end.
Definition message_id (r : MessageReference) : option Z :=
  match r with Ref i _ => i end.
Definition resolved (r : MessageReference) : option ResolvedReference :=
  match r with Ref _ x => x end.

(** ** utils.reply_history *)

Section ReplyHistory.
(** [channel.fetch_message(id)]: [None] when the call raises. *)
Variable fetch_message : Z → option Message.

(** Truth value of [reference.message_id]: [None] and [0] are falsy. *)
Definition truthy_id (i : option Z) : option Z :=
  match i with
  | Some z => if decide (z = 0) then None else Some z
  | None => None
  end.

(** One turn of the loop body after the [count >= limit] test: the message
    that is yielded, or [None] when one of the [break]s is taken. *)
Definition resolve_reply (current_message : Message) : option Message :=
  if decide (msg_type current_message ≠ MT_reply) then None
  else
    match reference current_message with
    | None => None
    | Some r =>
        match truthy_id (message_id r) with
        | None => None
        | Some mid =>
            (* [reference.resolved or await channel.fetch_message(...)],
               inside [try ... except: break] *)
            match resolved r with
            | Some (ResolvedMessage m) => Some m
            | Some DeletedReferencedMessage => None (* not a Message *)
            | None => fetch_message mid
            end
        end
    end.

(** The [while True] loop; [fuel] bounds the number of turns for the
    termination checker, [count] and [limit] are the source's variables. *)
Fixpoint reply_loop (fuel : nat) (limit count : Z) (current_message : Message)
  : list Message :=
  match fuel with
  | O => []
  | S fuel' =>
      if decide (count >= limit) then []
      else
        match resolve_reply current_message with
        | None => []
        | Some resolved_message =>
            resolved_message
              :: reply_loop fuel' limit (count + 1) resolved_message
        end
  end.

(** The messages yielded by [reply_history(message, limit)]. The loop adds
    one to [count] each turn and stops at [count >= limit], so
    [Z.to_nat limit] turns are enough (see [reply_loop_fuel]). *)
Definition reply_history (message : Message) (limit : Z) : list Message :=
  reply_loop (Z.to_nat limit) limit 0 message.

(** The message the walk stands on after [k] hops, if it gets that far
    without a limit. *)
Fixpoint current_after (k : nat) (message : Message) : option Message :=
  match k with
  | O => Some message
  | S k' =>
      match resolve_reply message with
      | None => None
      | Some m => current_after k' m
      end
  end.

(** The stopping conditions of the loop body, spelled out. *)
Definition not_a_reply (m : Message) : Prop := msg_type m ≠ MT_reply.
Definition no_reference (m : Message) : Prop :=
  match reference m with
  | None => True
  | Some r => truthy_id (message_id r) = None
  end.
Definition resolution_fails (m : Message) : Prop :=
  match reference m with
  | None => False
  | Some r =>
      match truthy_id (message_id r), resolved r with
      | Some mid, None => fetch_message mid = None
      | Some _, Some DeletedReferencedMessage => True
      | _, _ => False
      end
  end.
End ReplyHistory.

(** ** The body of OllamaBot.on_message *)

(** [list.sort(key=...)]: a stable sort on the keys. *)
Section Sort.
Context {A : Type} (key : A → Z).

Fixpoint insert_by (x : A) (l : list A) : list A :=
  match l with
  | [] => [x]
  | y :: l' => if decide (key x <= key y) then x :: y :: l' else y :: insert_by x l'
  end.

Definition sort_by (l : list A) : list A := foldr insert_by [] l.
End Sort.

(** Lines 117-123: concatenate, keep one message per id, sort by
    [created_at]. *)
Definition distinct_messages (message_history : list Message) : list Message :=
  PyDict.values (PyDict.of_pairs ((λ msg, (msg_id msg, msg)) <$> message_history)).

Definition assemble (message_replies message_history : list Message)
    (message : Message) : list Message :=
  sort_by created_at
    (distinct_messages (message_replies ++ message_history ++ [message])).

(** Lines 113-123 with the two sources: [history] stands for
    [message.channel.history(limit=..., before=message)]. *)
Definition context_of (fetch_message : Z → option Message)
    (history : Z → Message → list Message)
    (reply_limit message_limit : Z) (message : Message) : list Message :=
  let message_history := history message_limit message in
  let message_replies := reply_history fetch_message message reply_limit in
  assemble message_replies message_history message.

(** *** Delivering the answer *)

Definition MAX_LENGTH : nat := 2000.

(** The outcome of [ollama_client.chat(...)]: the [message.content] of the
    answer (which may be missing) or a raised exception with its text. *)
Inductive ChatOutcome : Type :=
  | ChatReturned (content : option string)
  | ChatRaised (e : string).

Definition response_text_of (r : ChatOutcome) : option string :=
  match r with
  | ChatReturned c => c
  | ChatRaised e => Some ("Error generating response: " +:+ e)
  end.

(** A call [message.reply(content, file=...)]; a file is a name and its
    bytes. A character of a [string] stands for one code point, so
    [String.length] is Python's [len]. *)
Inductive ReplyCall : Type :=
  | Reply (content : string) (file : option (string * string)).


Definition respond (response_text : option string) : ReplyCall :=
  match response_text with
  | Some text =>
      if decide (text = "") then Reply "No response generated." None
      else if decide (String.length text ≤ MAX_LENGTH)%nat then Reply text None
      else Reply "Response was too long, uploaded as file:"
                 (Some ("response.txt", text))
  | None => Reply "No response generated." None
  end.

(** ** Python values held by settings objects and by the JSON file *)

(** The only callables of the repository stored in a settings object are the
    closures [lambda: self.save()] made by a [SettingsManager]; the closure
    captures the manager. *)
Inductive Callback : Type :=
  | SaveSettings (manager : nat).

Inductive Value : Type :=
  | VNone
  | VBool (b : bool)
  | VInt (z : Z)
  | VFloat (repr : string)
  | VStr (s : string)
  | VList (l : list Value)
  | VDict (d : list (string * Value))
  | VFunc (c : Callback).

Definition is_None (v : Value) : bool :=
  match v with VNone => true | _ => false end.

(** [json.dump] accepts everything but callables. *)
Fixpoint json_serializable (v : Value) : bool :=
  match v with
  | VFunc _ => false
  | VList l => forallb json_serializable l
  | VDict d => forallb (λ kv, match kv with (_, x) => json_serializable x end) d
  | _ => true
  end.

(** *** [str(int)] and [int(str)] *)

Definition py_str (z : Z) : string :=
  DecimalString.NilZero.string_of_int (Z.to_int z).

Definition is_space (a : ascii) : bool :=
  bool_decide (a ∈ [" "; "009"; "010"; "011"; "012"; "013"]%char).

Definition is_digit (a : ascii) : bool :=
  bool_decide (a ∈ ["0"; "1"; "2"; "3"; "4"; "5"; "6"; "7"; "8"; "9"]%char).

Fixpoint lstrip (s : string) : string :=
  match s with
  | String a s' => if is_space a then lstrip s' else s
  | EmptyString => EmptyString
  end.

Fixpoint rstrip (s : string) : string :=
  match s with
  | String a s' =>
      match rstrip s' with
      | EmptyString => if is_space a then EmptyString else String a EmptyString
      | r => String a r
      end
  | EmptyString => EmptyString
  end.

(** Single underscores are allowed between two digits and are dropped;
    [after_digit] tells whether the previous character was a digit. *)
Fixpoint drop_underscores (after_digit : bool) (s : string) : option string :=
  match s with
  | EmptyString => Some EmptyString
  | String a s' =>
      if decide (a = "_"%char) then
        match s' with
        | String b _ =>
            if after_digit && is_digit b then drop_underscores false s' else None
        | EmptyString => None
        end
      else String a <$> drop_underscores (is_digit a) s'
  end.

(** [int(s)] for a [str]: surrounding white space, an optional sign, then
    decimal digits; [None] stands for [ValueError]. (Only the ASCII digits
    and white space are modelled.) *)
Definition py_int (s : string) : option Z :=
  let s := rstrip (lstrip s) in
  let '(negative, body) :=
    match s with
    | String "-" r => (true, r)
    | String "+" r => (false, r)
    | _ => (false, s)
    end in
  digits ← drop_underscores false body;
  u ← DecimalString.NilZero.uint_of_string digits;
  Some (Z.of_int (if negative : bool then Decimal.Neg u else Decimal.Pos u)).

(** ** The heap, the file system and the effect monad *)

Record Manager : Type := mkManager {
  path : string;
  guild_settings : list (Z * nat)   (* guild id ↦ reference to its settings *)
}.

(** What [json.load(open(path))] finds: a document, or something that cannot
    be opened or parsed. *)
Inductive File : Type :=
  | Document (v : Value)
  | Unparsable.

Record World : Type := mkWorld {
  objects : gmap nat (gmap string Value);  (* GuildSettings instances by slot *)
  managers : gmap nat Manager;
  files : gmap string File;
  read_only : gset string;                 (* paths that cannot be written *)
  save_calls : list nat;                   (* managers whose save() ran, oldest first *)
  error_log : list string
}.

Inductive Exn : Type :=
  | TypeError | ValueError | AttributeError | KeyError | OSError | JSONDecodeError.

Inductive Outcome (A : Type) : Type :=
  | Returned (a : A)
  | Raised (e : Exn).
Arguments Returned {A} a.
Arguments Raised {A} e.

Definition Py (A : Type) : Type := World → Outcome A * World.

Global Instance Py_ret : MRet Py := λ A a w, (Returned a, w).
Global Instance Py_bind : MBind Py := λ A B f m w,
  match m w with
  | (Returned a, w') => f a w'
  | (Raised e, w') => (Raised e, w')
  end.

Definition raise {A} (e : Exn) : Py A := λ w, (Raised e, w).
Definition try_except {A} (body : Py A) (handler : Exn → Py A) : Py A := λ w,
  match body w with
  | (Returned a, w') => (Returned a, w')
  | (Raised e, w') => handler e w'
  end.
Definition get_world : Py World := λ w, (Returned w, w).
Definition put_world (w' : World) : Py unit := λ _, (Returned (), w').
Definition from_option {A} (e : Exn) (o : option A) : Py A :=
  match o with Some a => mret a | None => raise e end.

Definition set_objects (f : gmap nat (gmap string Value) → gmap nat (gmap string Value))
    (w : World) : World :=
  mkWorld (f (objects w)) (managers w) (files w) (read_only w) (save_calls w) (error_log w).
Definition set_managers (f : gmap nat Manager → gmap nat Manager) (w : World) : World :=
  mkWorld (objects w) (f (managers w)) (files w) (read_only w) (save_calls w) (error_log w).
Definition set_files (f : gmap string File → gmap string File) (w : World) : World :=
  mkWorld (objects w) (managers w) (f (files w)) (read_only w) (save_calls w) (error_log w).
Definition note_save (self : nat) (w : World) : World :=
  mkWorld (objects w) (managers w) (files w) (read_only w) (save_calls w ++ [self]) (error_log w).
Definition note_error (msg : string) (w : World) : World :=
  mkWorld (objects w) (managers w) (files w) (read_only w) (save_calls w) (error_log w ++ [msg]).

Definition modify (f : World → World) : Py unit := λ w, (Returned (), f w).
Definition log_error (msg : string) : Py unit := modify (note_error msg).

Definition the_manager (self : nat) : Py Manager :=
  w ← get_world; from_option AttributeError (managers w !! self).
Definition the_object (r : nat) : Py (gmap string Value) :=
  w ← get_world; from_option AttributeError (objects w !! r).

(** ** settings_manager.GuildSettings *)

(** The dataclass fields in declaration order, with their defaults
    ([guild_id] has none). *)
Definition fields : list (string * option Value) :=
  [ ("guild_id", None);
    ("system_prompt", Some (VStr "You are a helpful assistant."));
    ("model", Some (VStr "llama3"));
    ("required_role", Some VNone);
    ("reply_history", Some (VInt 10));
    ("message_history", Some (VInt 10));
    ("on_change", Some VNone) ]%string.

Definition field_names : list string := fields.*1.

(** [object.__setattr__] on an instance with [__slots__]. *)
Definition object_setattr (self : nat) (key : string) (value : Value) : Py unit :=
  o ← the_object self;
  if decide (key ∈ field_names)
  then modify (set_objects <[self := <[key := value]> o]>)
  else raise AttributeError.

(** [getattr(self, key, default)]: an unset slot gives the default. *)
Definition getattr (self : nat) (key : string) (otherwise : Value) : Py Value :=
  o ← the_object self; mret (default otherwise (o !! key)).

(** [GuildSettings.dict_factory]: drop [None] values and the hook. *)
Definition excluded : list string := ["on_change"]%string.

Definition dict_factory (items : list (string * Value)) : list (string * Value) :=
  PyDict.of_pairs (filter (λ kv, is_None kv.2 = false ∧ kv.1 ∉ excluded) items).

(** [asdict(settings, dict_factory=...)]: every field is read in declaration
    order (an unset slot raises, here [None]); field values are plain data,
    which [asdict] copies unchanged. *)
Definition asdict (o : gmap string Value) : option (list (string * Value)) :=
  dict_factory <$> mapM (λ name, (λ v, (name, v)) <$> o !! name) field_names.

(** The dict comprehension at the head of [save]. *)
Definition serializable_of (objs : gmap nat (gmap string Value))
    (d : list (Z * nat)) : option (list (Z * list (string * Value))) :=
  PyDict.of_pairs <$>
    mapM (λ '(gid, r), o ← objs !! r; fs ← asdict o; Some (gid, fs)) d.

(** [json.dump(serializable, f)]: integer keys are written as strings; a
    callable anywhere makes it raise, here [None]. *)
Definition json_document (serializable : list (Z * list (string * Value))) : Value :=
  VDict ((λ '(gid, fs), (py_str gid, VDict fs)) <$> serializable).

Definition json_dump (serializable : list (Z * list (string * Value))) : option Value :=
  let doc := json_document serializable in
  if json_serializable doc then Some doc else None.

(** [SettingsManager.save] *)
Definition save_body (self : nat) : Py unit :=
  mgr ← the_manager self;
  w ← get_world;
  serializable ← from_option AttributeError
                   (serializable_of (objects w) (guild_settings mgr));
  (* [mkdir(parents=True, exist_ok=True)] and [open(path, "w")] *)
  if decide (path mgr ∈ read_only w) then raise OSError
  else
    match json_dump serializable with
    | Some doc => modify (set_files <[path mgr := Document doc]>)
    | None =>
        (* the file was truncated by [open] and is left half written *)
        modify (set_files <[path mgr := Unparsable]>);; raise TypeError
    end.

Definition save (self : nat) : Py unit :=
  modify (note_save self);;
  try_except (save_body self) (λ _, log_error "Error saving settings").

Definition call (c : Callback) : Py unit :=
  match c with SaveSettings manager => save manager end.

(** [GuildSettings.__setattr__] *)
Definition setattr (self : nat) (key : string) (value : Value) : Py unit :=
  object_setattr self key value;;
  if decide (key ≠ "on_change"%string) then
    callback ← getattr self "on_change" VNone;
    match callback with
    | VFunc c => call c
    | _ => mret ()
    end
  else mret ().

(** The generated [__init__]: keyword arguments are bound to the fields
    (an unknown keyword or a missing [guild_id] is a [TypeError]), then every
    field is assigned in declaration order through [__setattr__]. *)
Definition bind_arguments (kwargs : list (string * Value))
    : option (list (string * Value)) :=
  if decide (Forall (λ kv, kv.1 ∈ field_names) kwargs) then
    mapM (λ '(name, dflt),
            (λ v, (name, v)) <$>
              match PyDict.get name kwargs with
              | Some v => Some v
              | None => dflt
              end) fields
  else None.

Fixpoint assign_all (self : nat) (args : list (string * Value)) : Py unit :=
  match args with
  | [] => mret ()
  | (name, value) :: rest => setattr self name value;; assign_all self rest
  end.

Definition GuildSettings_new (kwargs : list (string * Value)) : Py nat :=
  args ← from_option TypeError (bind_arguments kwargs);
  w ← get_world;
  let self := fresh (dom (objects w)) in
  modify (set_objects <[self := ∅]>);;
  assign_all self args;;
  mret self.

(** ** settings_manager.SettingsManager *)

Definition set_guild_settings (self : nat) (f : list (Z * nat) → list (Z * nat))
    : Py unit :=
  mgr ← the_manager self;
  modify (set_managers <[self := mkManager (path mgr) (f (guild_settings mgr))]>).

Definition getitem (self : nat) (key : Z) : Py nat :=
  mgr ← the_manager self;
  (if decide (key ∈ PyDict.keys (guild_settings mgr)) then mret ()
   else
     settings ← GuildSettings_new
                  [("guild_id", VInt key); ("on_change", VFunc (SaveSettings self))]%string;
     set_guild_settings self (PyDict.set key settings));;
  mgr ← the_manager self;
  from_option KeyError (PyDict.get key (guild_settings mgr)).

Definition setitem (self : nat) (key : Z) (value : nat) : Py unit :=
  set_guild_settings self (PyDict.set key value).

(** The call of [GuildSettings] with the keywords of [data] and [on_change] *)
Definition settings_from_data (self : nat) (data : Value) : Py nat :=
  match data with
  | VDict d =>
      if decide ("on_change"%string ∈ PyDict.keys d) then raise TypeError
      else GuildSettings_new (d ++ [("on_change"%string, VFunc (SaveSettings self))])
  | _ => raise TypeError
  end.

(** The [for gid_str, data in data.items()] loop of [load]; the right-hand
    side of the assignment is evaluated before [int(gid_str)]. *)
Fixpoint load_items (self : nat) (items : list (string * Value)) : Py unit :=
  match items with
  | [] => mret ()
  | (gid_str, data) :: rest =>
      settings ← settings_from_data self data;
      key ← from_option ValueError (py_int gid_str);
      setitem self key settings;;
      load_items self rest
  end.

Definition json_load (p : string) : Py Value := λ w,
  match files w !! p with
  | Some (Document v) => (Returned v, w)
  | Some Unparsable => (Raised JSONDecodeError, w)
  | None => (Raised OSError, w)
  end.

Definition dict_items (v : Value) : Py (list (string * Value)) :=
  match v with
  | VDict d => mret d
  | _ => raise AttributeError
  end.

Definition load (self : nat) : Py unit :=
  mgr ← the_manager self;
  w ← get_world;
  if decide (files w !! path mgr = None) then log_error "File not found"
  else
    try_except
      (data ← json_load (path mgr);
       items ← dict_items data;
       load_items self items)
      (λ _, set_guild_settings self (λ _, []);;
            log_error "Error loading settings").

(** [SettingsManager(path)] *)
Definition SettingsManager_new (p : string) : Py nat :=
  w ← get_world;
  let self := fresh (dom (managers w)) in
  modify (set_managers <[self := mkManager p []]>);;
  load self;;
  mret self.

(** *** Reading a store *)

(** The data fields of a settings object: every slot but the hook. *)
Definition data_fields : list string :=
  ["guild_id"; "system_prompt"; "model"; "required_role"; "reply_history";
   "message_history"]%string.


(** *** Settings objects with the declared field types *)

(** The dataclass annotations: what a settings object holds when every field
    has its declared type. *)
Record Settings : Type := mkSettings {
  guild_id : Z;
  system_prompt : string;
  model : string;
  required_role : option Z;
  reply_history_limit : Z;
  message_history_limit : Z
}.

Definition optional_int (o : option Z) : Value :=
  match o with Some z => VInt z | None => VNone end.

(** The instance with these field values and [on_change] set to [hook]. *)
Definition to_object (s : Settings) (hook : Value) : gmap string Value :=
  <["on_change" := hook]>
  (<["message_history" := VInt (message_history_limit s)]>
  (<["reply_history" := VInt (reply_history_limit s)]>
  (<["required_role" := optional_int (required_role s)]>
  (<["model" := VStr (model s)]>
  (<["system_prompt" := VStr (system_prompt s)]>
  (<["guild_id" := VInt (guild_id s)]> ∅))))))%string.

Definition default_settings (gid : Z) : Settings :=
  mkSettings gid "You are a helpful assistant." "llama3" None 10 10.



(** The state a manager is in when its settings were all made by the manager
    itself ([load] and [__getitem__]): every settings object is fully
    constructed and carries the manager's own hook. *)
Definition constructed (o : gmap string Value) : Prop :=
  Forall (λ name, is_Some (o !! name)) field_names.

Definition store_hooked (w : World) (self : nat) : Prop :=
  ∃ mgr, managers w !! self = Some mgr
    ∧ NoDup (PyDict.keys (guild_settings mgr))
    ∧ Forall (λ kr, ∃ o, objects w !! kr.2 = Some o ∧ constructed o
                       ∧ o !! "on_change"%string = Some (VFunc (SaveSettings self)))
             (guild_settings mgr).

(** *** What [load] accepts *)

(** An entry of the file passes the loop body of [load] exactly when its key
    is an integer literal and its value is an object that names only data
    fields and has a [guild_id]. Field values are not inspected. *)
Definition entry_accepted (kv : string * Value) : bool :=
  match kv.2 with
  | VDict d =>
      bool_decide (Forall (λ name, name ∈ data_fields) (PyDict.keys d))
      && bool_decide (is_Some (PyDict.get "guild_id"%string d))
      && bool_decide (is_Some (py_int kv.1))
  | _ => false
  end.

Definition accepted (f : File) : bool :=
  match f with
  | Document (VDict items) => forallb entry_accepted items
  | _ => false
  end.

(** *** The backing-file schema in the specification's words *)





(** ** Auxiliary definitions used in the statements and proofs below *)


(** The object built by assigning [args] in order to an empty instance. *)
Definition object_of (args : list (string * Value)) : gmap string Value :=
  foldl (λ o kv, <[kv.1 := kv.2]> o) ∅ args.


(** The world [save] leaves behind, for a manager [mgr] found at [self]. *)
Definition saved (self : nat) (mgr : Manager) (w : World) : World :=
  let w1 := note_save self w in
  match serializable_of (objects w) (guild_settings mgr) with
  | None => note_error "Error saving settings" w1
  | Some serializable =>
      if decide (path mgr ∈ read_only w)
      then note_error "Error saving settings" w1
      else
        match json_dump serializable with
        | Some doc => set_files <[path mgr := Document doc]> w1
        | None =>
            note_error "Error saving settings"
              (set_files <[path mgr := Unparsable]> w1)
        end
  end.

(** [w'] arises from [w] without any call of [save] and without touching the
    file system; managers stay, with their paths. *)
Definition no_save (w w' : World) : Prop :=
  files w' = files w
  ∧ save_calls w' = save_calls w
  ∧ read_only w' = read_only w
  ∧ objects w ⊆ objects w'
  ∧ ∀ self mgr, managers w !! self = Some mgr →
      ∃ mgr', managers w' !! self = Some mgr' ∧ path mgr' = path mgr.





(** A store with one guild, as a lookup of guild 1 leaves it. *)
Definition small_store : World :=
  mkWorld
    {[0%nat := to_object (default_settings 1) (VFunc (SaveSettings 0))]}
    {[0%nat := mkManager "settings.json" [(1, 0%nat)]]}
    ∅ ∅ [] [].

(** The messages of the specification's scenario. *)
Definition scenario_M1 : Message := Msg 1 10 MT_default "one" None.
Definition scenario_M2 : Message := Msg 2 20 MT_default "two" None.
Definition scenario_M3 : Message := Msg 3 30 MT_default "three" None.
Definition scenario_M4 : Message :=
  Msg 4 40 MT_reply "four" (Some (Ref (Some 3) (Some (ResolvedMessage scenario_M3)))).
Definition scenario_M5 : Message :=
  Msg 5 50 MT_reply "five" (Some (Ref (Some 4) None)).
Definition scenario_fetch (i : Z) : option Message :=
  if decide (i = 4) then Some scenario_M4 else None.



(** Unfolding the effect monad in proofs. *)
Ltac py_unfold :=
  repeat (progress
    (unfold mbind, Py_bind, mret, Py_ret, raise, try_except, get_world,
       put_world, from_option, modify, log_error, the_manager, the_object;
     simpl)).

(** ** Further code of the repository *)

(** *** Strings *)

(** [s.startswith(prefix)] *)
Fixpoint startswith (prefix s : string) : bool :=
  match prefix, s with
  | EmptyString, _ => true
  | String a prefix', String b s' => bool_decide (a = b) && startswith prefix' s'
  | String _ _, EmptyString => false
  end.

(** [sub in s] *)
Fixpoint is_substring (sub s : string) : bool :=
  startswith sub s
  || match s with
     | EmptyString => false
     | String _ s' => is_substring sub s'
     end.

(** [s.replace(old, "")]: occurrences are found from left to right and do
    not overlap; [skip] counts the characters of an occurrence still to be
    dropped. *)
Fixpoint remove_from (old : string) (skip : nat) (s : string) : string :=
  match s with
  | EmptyString => EmptyString
  | String a s' =>
      match skip with
      | S skip' => remove_from old skip' s'
      | O =>
          if startswith old s
          then remove_from old (String.length old - 1) s'
          else String a (remove_from old 0 s')
      end
  end.

Definition str_remove (old s : string) : string :=
  if decide (old = EmptyString) then s else remove_from old 0 s.

(** *** The unbounded reply chain *)

(** The first [n] ancestors along the reply chain, as far as they resolve:
    the walk of [reply_history] without its counter. *)
Fixpoint chain (fetch_message : Z → option Message) (n : nat) (m : Message)
  : list Message :=
  match n with
  | O => []
  | S n' =>
      match resolve_reply fetch_message m with
      | None => []
      | Some r => r :: chain fetch_message n' r
      end
  end.

(** Every reference met within [n] hops carries its resolved message or the
    deleted-message placeholder, so that [fetch_message] is not needed. *)
Fixpoint attached (n : nat) (m : Message) : Prop :=
  match n with
  | O => True
  | S n' =>
      match reference m with
      | Some (Ref _ None) => False
      | Some (Ref _ (Some (ResolvedMessage r))) => attached n' r
      | _ => True
      end
  end.

(** *** utils.to_ollama_message and the model request *)

Record User : Type := mkUser {
  user_id : Z;
  mention : string
}.

(** An attachment: its declared content type and what [read()] returns
    ([None] when it raises). *)
Record Attachment : Type := mkAttachment {
  content_type : option string;
  read : option string
}.

(** [images] is [None] when the entry is built without images. *)
Record OllamaMessage : Type := mkOllamaMessage {
  role : string;
  content : string;
  images : option (list string)
}.

Definition SYSTEM_PROMPT : string :=
  "You are in a discord server. Every user message is prefixed with their username, colon and space '<@USERID>: ' this is metadata. When referring to a user, use their username '<@USERID>'. Example: 'Hello <@123456789012345678>!'.".

Definition newline : string := String "010" EmptyString.

Section ToOllama.
(** The attributes of a Discord message that only the conversion reads. *)
Variable author : Message → User.
Variable attachments : Message → list Attachment.

(** [attachment.content_type and attachment.content_type.startswith("image/")] *)
Definition is_image (a : Attachment) : bool :=
  match content_type a with
  | Some t => negb (bool_decide (t = EmptyString)) && startswith "image/" t
  | None => false
  end.

(** Users compare by id; [discord_client.user] is [None] before login. *)
Definition is_bot (bot_user : option User) (u : User) : bool :=
  match bot_user with
  | Some b => bool_decide (user_id u = user_id b)
  | None => false
  end.

(** [to_ollama_message]; [None] when reading an image attachment raises. *)
Definition to_ollama_message (bot_user : option User) (message : Message)
  : option OllamaMessage :=
  let '(role, content) :=
    if is_bot bot_user (author message)
    then ("assistant"%string, msg_content message)
    else ("user"%string,
          mention (author message) +:+ ": " +:+ msg_content message) in
  let content :=
    match bot_user with
    | Some b => str_remove (mention b) content
    | None => content
    end in
  let image_attachments := filter (λ a, is_image a = true) (attachments message) in
  image_data ← mapM read image_attachments;
  Some (mkOllamaMessage role content (Some image_data)).

(** Lines 125-131 of [on_message]: convert every message, then put the
    system prompt first. *)
Definition build_request (bot_user : option User) (system_prompt : string)
    (message_history : list Message) : option (list OllamaMessage) :=
  converted ← mapM (to_ollama_message bot_user) message_history;
  Some (mkOllamaMessage "system"
          (SYSTEM_PROMPT +:+ newline +:+ system_prompt) None :: converted).

End ToOllama.

(** *** utils.has_required_role and the settings commands *)

(** An interaction: the id of its guild, if any, and the role ids of its
    user when the user is a [Member] ([None] otherwise). *)
Record Interaction : Type := mkInteraction {
  guild : option Z;
  member_roles : option (list Z)
}.

Inductive CheckOutcome : Type :=
  | CheckReturned (b : bool)
  | CheckFailure
  | CheckRaised (e : Exn).

(** Reading an attribute of a settings instance; an unset slot raises. *)
Definition get_slot (self : nat) (key : string) : Py Value :=
  o ← the_object self; from_option AttributeError (o !! key).

Section RoleCheck.
(** [float == int], for a float given by its text. *)
Variable float_eq_int : string → Z → bool.

(** [value == z] for an [int] [z]. *)
Definition eq_int (value : Value) (z : Z) : bool :=
  match value with
  | VInt x => bool_decide (x = z)
  | VBool b => bool_decide ((if b then 1 else 0) = z)
  | VFloat repr => float_eq_int repr z
  | _ => false
  end.

Definition has_required_role (client : nat) (interaction : Interaction)
  : World → CheckOutcome * World := λ w,
  match guild interaction, member_roles interaction with
  | Some gid, Some roles =>
      match (config ← getitem client gid; get_slot config "required_role") w with
      | (Returned required, w') =>
          if is_None required || existsb (eq_int required) roles
          then (CheckReturned true, w')
          else (CheckFailure, w')
      | (Raised e, w') => (CheckRaised e, w')
      end
  | _, _ => (CheckRaised ValueError, w)
  end.
End RoleCheck.



(** *** model_group.model_autocomplete *)

Section Autocomplete.
Context {Time : Type}.
(** [now - last_fetch_time > 10] on the monotonic clock. *)
Variable expired : Time → Time → bool.
(** [str.lower] *)
Variable lower : string → string.

(** A [Choice] as a pair of its name and its value. *)
Definition choices_of (models : list (option string)) : list (string * string) :=
  omap (λ m, (λ name, (name, name)) <$> m) models.

(** [model_autocomplete] as a function of the module-level cache:
    [listing] is what [ollama_client.list()] gives when it is called
    ([None] when it raises). The result is the list returned and the cache
    afterwards. *)
Definition model_autocomplete (now : Time) (listing : option (list (option string)))
    (current : string) (cache : Time * list (string * string))
  : list (string * string) * (Time * list (string * string)) :=
  let '(last_fetch_time, cached_models) := cache in
  let matching :=
    take 25 (filter (λ choice, is_substring (lower current) (lower choice.1) = true)
               cached_models) in
  if expired now last_fetch_time then
    match listing with
    | Some models => (matching, (now, choices_of models))
    | None => ([], (now, []))
    end
  else (matching, cache).
End Autocomplete.

(** *** What [load] builds from an accepted file *)

(** The instance built from the fields [d] of an entry. *)
Definition entry_object (self : nat) (d : list (string * Value)) : gmap string Value :=
  default ∅
    (object_of <$>
       bind_arguments (d ++ [("on_change"%string, VFunc (SaveSettings self))])).



(** The default of a data field. *)
Definition default_of (name : string) : Value :=
  default VNone (mjoin (PyDict.get name fields)).

(** A bot, an author and attachments for the scenario's messages: [M4] is
    the bot's own message, [M5] carries a readable image and a text file. *)
Definition scenario_bot : User := mkUser 99 "<@99>".
Definition scenario_author (m : Message) : User :=
  if decide (msg_id m = 4) then scenario_bot else mkUser 7 "<@7>".
Definition scenario_attachments (m : Message) : list Attachment :=
  if decide (msg_id m = 5)
  then [mkAttachment (Some "image/png"%string) (Some "PNG"%string);
        mkAttachment (Some "text/plain"%string) None]
  else [].


(** A clock in whole seconds and a listing with one unnamed model. *)
Definition scenario_expired (now last_fetch_time : Z) : bool :=
  bool_decide (now - last_fetch_time > 10).
Definition scenario_listing : option (list (option string)) :=
  Some [Some "llama3"; None; Some "phi"]%string.

Local Set Warnings "-clear-no-such-hyp".

(** * Properties *)

(** ** Facts about dicts *)

Section DictFacts.
Context {K V : Type} `{EqDecision K}.
Implicit Types (d l : list (K * V)) (k : K) (v : V).

Lemma set_fresh k v d :
  k ∉ PyDict.keys d → PyDict.set k v d = d ++ [(k, v)].
Proof.
  unfold PyDict.keys. induction d as [|[k' v'] d IH]; simpl; [done|].
  intros Hk. apply not_elem_of_cons in Hk as [Hne Hk].
  case_decide; [done|]. by rewrite IH.
Qed.

Lemma keys_set k v d :
  PyDict.keys (PyDict.set k v d)
  = if decide (k ∈ PyDict.keys d) then PyDict.keys d else PyDict.keys d ++ [k].
Proof.
  unfold PyDict.keys. induction d as [|[k' v'] d IH]; csimpl.
  - by destruct (decide (k ∈ [])) as [?%elem_of_nil|].
  - destruct (decide (k = k')) as [->|Hne]; csimpl.
    + destruct (decide (k' ∈ k' :: _)) as [|Hin]; [done|].
      exfalso. apply Hin. left.
    + rewrite IH. destruct (decide (k ∈ d.*1)) as [Hin|Hin].
      * destruct (decide (k ∈ k' :: _)) as [|Hin']; [done|].
        exfalso. apply Hin'. by right.
      * destruct (decide (k ∈ k' :: _)) as [Hin'|]; [|done].
        by apply elem_of_cons in Hin' as [?|?].
Qed.

Lemma elem_of_keys_set k k' v d :
  k' ∈ PyDict.keys (PyDict.set k v d) ↔ k' = k ∨ k' ∈ PyDict.keys d.
Proof.
  rewrite keys_set. case_decide; [|rewrite elem_of_app, list_elem_of_singleton];
    naive_solver.
Qed.

Lemma NoDup_keys_set k v d :
  NoDup (PyDict.keys d) → NoDup (PyDict.keys (PyDict.set k v d)).
Proof.
  intros Hd. rewrite keys_set. case_decide; [done|].
  apply NoDup_app. split_and!; [done | | apply NoDup_singleton].
  intros x Hx ->%list_elem_of_singleton. done.
Qed.

Lemma elem_of_set k v d kv :
  kv ∈ PyDict.set k v d → kv = (k, v) ∨ kv ∈ d.
Proof.
  induction d as [|[k' v'] d IH]; simpl.
  - intros ->%list_elem_of_singleton. by left.
  - case_decide; intros [->|Hin]%elem_of_cons.
    + by left.
    + right. by right.
    + right. left.
    + destruct (IH Hin); [by left | right; by right].
Qed.

Lemma get_set_eq k v d : PyDict.get k (PyDict.set k v d) = Some v.
Proof.
  induction d as [|[k' v'] d IH]; simpl.
  - by case_decide.
  - destruct (decide (k = k')) as [->|Hne]; simpl; by case_decide.
Qed.

Lemma get_set_ne k k' v d :
  k ≠ k' → PyDict.get k' (PyDict.set k v d) = PyDict.get k' d.
Proof.
  intros Hne. induction d as [|[k0 v0] d IH]; simpl.
  - case_decide; [by subst|done].
  - destruct (decide (k = k0)) as [->|Hne0]; simpl.
    + case_decide; [by subst|]. done.
    + by rewrite IH.
Qed.

Lemma get_Some_elem_of k v d : PyDict.get k d = Some v → (k, v) ∈ d.
Proof.
  induction d as [|[k' v'] d IH]; simpl; [done|].
  case_decide as Hk.
  - intros [= ->]. subst. left.
  - intros. right. auto.
Qed.

Lemma get_None k d : PyDict.get k d = None ↔ k ∉ PyDict.keys d.
Proof.
  unfold PyDict.keys. induction d as [|[k' v'] d IH]; simpl.
  - split; [intros _; apply not_elem_of_nil | done].
  - rewrite not_elem_of_cons. case_decide; naive_solver.
Qed.

Lemma get_app_l k d l :
  k ∈ PyDict.keys d → PyDict.get k (d ++ l) = PyDict.get k d.
Proof.
  unfold PyDict.keys. induction d as [|[k' v'] d IH]; simpl.
  - by intros ?%elem_of_nil.
  - case_decide; [done|]. intros [?|?]%elem_of_cons; [done | auto].
Qed.

Lemma get_app_r k d l :
  k ∉ PyDict.keys d → PyDict.get k (d ++ l) = PyDict.get k l.
Proof.
  unfold PyDict.keys. induction d as [|[k' v'] d IH]; simpl; [done|].
  intros [? ?]%not_elem_of_cons. case_decide; [done | auto].
Qed.

Lemma store_all_cons k v l acc :
  PyDict.store_all acc ((k, v) :: l) = PyDict.store_all (PyDict.set k v acc) l.
Proof. reflexivity. Qed.

Lemma NoDup_keys_store_all l acc :
  NoDup (PyDict.keys acc) → NoDup (PyDict.keys (PyDict.store_all acc l)).
Proof.
  revert acc. induction l as [|[k v] l IH]; intros acc Hacc; [done|].
  rewrite store_all_cons. apply IH. by apply NoDup_keys_set.
Qed.

Lemma elem_of_keys_store_all l acc k :
  k ∈ PyDict.keys (PyDict.store_all acc l) ↔ k ∈ PyDict.keys acc ∨ k ∈ l.*1.
Proof.
  revert acc. induction l as [|[k' v'] l IH]; intros acc.
  - simpl. rewrite elem_of_nil. naive_solver.
  - rewrite store_all_cons, IH, elem_of_keys_set. csimpl.
    rewrite elem_of_cons. naive_solver.
Qed.

Lemma elem_of_store_all l acc kv :
  kv ∈ PyDict.store_all acc l → kv ∈ acc ∨ kv ∈ l.
Proof.
  revert acc. induction l as [|[k' v'] l IH]; intros acc; [by left|].
  rewrite store_all_cons. intros [[->|?]%elem_of_set|?]%IH.
  - right. left.
  - by left.
  - right. by right.
Qed.

Lemma store_all_fresh l acc :
  NoDup (PyDict.keys acc ++ l.*1) → PyDict.store_all acc l = acc ++ l.
Proof.
  revert acc. induction l as [|[k v] l IH]; intros acc Hnd.
  - simpl. by rewrite app_nil_r.
  - rewrite store_all_cons. simpl in Hnd. rewrite set_fresh.
    + rewrite IH; [by rewrite <- app_assoc|].
      unfold PyDict.keys in *. rewrite fmap_app. simpl.
      by rewrite <- app_assoc.
    + apply NoDup_app in Hnd as (_ & Hd & _). intros Hin.
      apply (Hd _ Hin). left.
Qed.

Lemma of_pairs_NoDup_keys l : NoDup (PyDict.keys (PyDict.of_pairs l)).
Proof. apply NoDup_keys_store_all. constructor. Qed.

Lemma elem_of_keys_of_pairs l k :
  k ∈ PyDict.keys (PyDict.of_pairs l) ↔ k ∈ l.*1.
Proof.
  unfold PyDict.of_pairs. rewrite (elem_of_keys_store_all l []).
  unfold PyDict.keys. simpl. rewrite elem_of_nil. naive_solver.
Qed.

Lemma elem_of_of_pairs l kv : kv ∈ PyDict.of_pairs l → kv ∈ l.
Proof. by intros [?%elem_of_nil|?]%elem_of_store_all. Qed.

Lemma of_pairs_id l : NoDup l.*1 → PyDict.of_pairs l = l.
Proof. intros Hnd. by apply (store_all_fresh l []). Qed.
End DictFacts.

(** ** Facts about the sort *)

Section SortFacts.
Context {A : Type} (key : A → Z).

Lemma insert_by_Permutation x l : insert_by key x l ≡ₚ x :: l.
Proof.
  induction l as [|y l IH]; simpl; [done|].
  case_decide; [done|]. rewrite IH. apply Permutation_swap.
Qed.

Lemma sort_by_Permutation l : sort_by key l ≡ₚ l.
Proof.
  induction l as [|x l IH]; simpl; [done|].
  by rewrite insert_by_Permutation, IH.
Qed.

Lemma insert_by_sorted x l :
  StronglySorted Z.le (key <$> l) →
  StronglySorted Z.le (key <$> insert_by key x l).
Proof.
  induction l as [|y l IH]; simpl; intros Hs.
  - repeat constructor.
  - apply StronglySorted_inv in Hs as [Hs Hall].
    case_decide as Hle; simpl.
    + constructor; [by constructor|].
      constructor; [done|].
      eapply Forall_impl; [exact Hall|]. intros z Hz. simpl in Hz. lia.
    + constructor; [by apply IH|].
      rewrite (insert_by_Permutation x l). simpl.
      constructor; [lia | done].
Qed.

Lemma sort_by_sorted l : StronglySorted Z.le (key <$> sort_by key l).
Proof.
  induction l as [|x l IH]; simpl; [constructor|]. by apply insert_by_sorted.
Qed.
End SortFacts.

(** ** The assembled context *)

Lemma distinct_messages_ids l :
  msg_id <$> distinct_messages l
  = PyDict.keys (PyDict.of_pairs ((λ msg, (msg_id msg, msg)) <$> l)).
Proof.
  unfold distinct_messages, PyDict.values, PyDict.keys.
  set (d := PyDict.of_pairs _).
  assert (Hd : ∀ kv, kv ∈ d → msg_id kv.2 = kv.1).
  { intros kv Hkv. apply elem_of_of_pairs in Hkv.
    apply list_elem_of_fmap in Hkv as (m & -> & _). done. }
  clearbody d. induction d as [|[k m] d IH]; simpl; [done|].
  f_equal.
  - apply (Hd (k, m)). left.
  - apply IH. intros kv Hkv. apply Hd. by right.
Qed.

Lemma distinct_messages_NoDup l : NoDup (msg_id <$> distinct_messages l).
Proof. rewrite distinct_messages_ids. apply of_pairs_NoDup_keys. Qed.

Lemma distinct_messages_ids_iff l i :
  i ∈ msg_id <$> distinct_messages l ↔ i ∈ msg_id <$> l.
Proof.
  rewrite distinct_messages_ids, elem_of_keys_of_pairs.
  by rewrite <- list_fmap_compose.
Qed.

Lemma distinct_messages_subset l m : m ∈ distinct_messages l → m ∈ l.
Proof.
  unfold distinct_messages, PyDict.values.
  intros ([k m'] & -> & Hkv)%list_elem_of_fmap.
  apply elem_of_of_pairs, list_elem_of_fmap in Hkv as (m & [= -> ->] & Hm).
  done.
Qed.

Lemma filter_key_absent {A} (f : A → Z) (l : list A) (i : Z) :
  i ∉ f <$> l → filter (λ x, f x = i) l = [].
Proof.
  induction l as [|x l IH]; simpl; [done|].
  intros [Hx Hl]%not_elem_of_cons.
  rewrite filter_cons_False by done. auto.
Qed.

Lemma count_one_of_NoDup {A} (f : A → Z) (l : list A) (i : Z) :
  NoDup (f <$> l) → i ∈ f <$> l →
  length (filter (λ x, f x = i) l) = 1%nat.
Proof.
  induction l as [|x l IH]; simpl.
  - by intros _ ?%elem_of_nil.
  - intros [Hx Hnd]%NoDup_cons Hin.
    destruct (decide (f x = i)) as [Hfx|Hfx].
    + rewrite filter_cons_True by done. subst i.
      by rewrite filter_key_absent.
    + rewrite filter_cons_False by done.
      apply elem_of_cons in Hin as [?|?]; [done | auto].
Qed.

(** C1. Whatever the reply chain and the history window return, duplicates
    included, the assembled context has exactly one entry for every message
    id among the candidates, and nothing but candidates. *)
Theorem assemble_one_entry_per_id
    (message_replies message_history : list Message) (message : Message) :
  let candidates := message_replies ++ message_history ++ [message] in
  let out := assemble message_replies message_history message in
  NoDup (msg_id <$> out)
  ∧ (∀ m, m ∈ out → m ∈ candidates)
  ∧ (∀ i, i ∈ msg_id <$> candidates ↔ i ∈ msg_id <$> out)
  ∧ (∀ i, i ∈ msg_id <$> candidates →
          length (filter (λ m, msg_id m = i) out) = 1%nat).
Proof.
  intros candidates out.
  assert (Hperm : out ≡ₚ distinct_messages candidates)
    by apply sort_by_Permutation.
  assert (Hnd : NoDup (msg_id <$> out)).
  { rewrite Hperm. apply distinct_messages_NoDup. }
  assert (Hids : ∀ i, i ∈ msg_id <$> candidates ↔ i ∈ msg_id <$> out).
  { intros i. rewrite Hperm. symmetry. apply distinct_messages_ids_iff. }
  split_and!; [done | | done |].
  - intros m Hm. rewrite Hperm in Hm. by apply distinct_messages_subset.
  - intros i Hi. apply count_one_of_NoDup; [done | by apply Hids].
Qed.

(** C2. The assembled context is in non-decreasing order of creation
    time. *)
Theorem assemble_sorted_by_created_at
    (message_replies message_history : list Message) (message : Message) :
  StronglySorted Z.le
    (created_at <$> assemble message_replies message_history message).
Proof. apply sort_by_sorted. Qed.

(** ** The reply-chain walk *)

Section ReplyHistoryFacts.
Variable fetch_message : Z → option Message.

Local Abbreviation resolve := (resolve_reply fetch_message).
Local Abbreviation loop := (reply_loop fetch_message).
Local Abbreviation after := (current_after fetch_message).

(** The loop breaks exactly on the listed conditions. *)
Lemma resolve_reply_None m :
  resolve m = None
  ↔ not_a_reply m ∨ no_reference m ∨ resolution_fails fetch_message m.
Proof.
  unfold resolve_reply, not_a_reply, no_reference, resolution_fails.
  destruct (decide (msg_type m ≠ MT_reply)) as [Hty|Hty]; [naive_solver|].
  destruct (reference m) as [r|]; [|naive_solver].
  destruct (truthy_id (message_id r)) as [mid|]; [|naive_solver].
  destruct (resolved r) as [[m'|]|]; naive_solver.
Qed.

Lemma reply_loop_spec fuel :
  ∀ limit count m,
    (Z.to_nat (limit - count) ≤ fuel)%nat →
    (length (loop fuel limit count m) ≤ Z.to_nat (limit - count))%nat
    ∧ (∀ j x, loop fuel limit count m !! j = Some x →
              after (S j) m = Some x)
    ∧ (∀ k mk, Z.of_nat k < limit - count →
               after k m = Some mk →
               resolve mk = None →
               length (loop fuel limit count m) = k).
Proof.
  induction fuel as [|fuel IH]; intros limit count m Hfuel.
  - simpl. split_and!; [lia | done | lia].
  - simpl. destruct (decide (count >= limit)) as [Hge|Hlt].
    { simpl. split_and!; [lia | done | lia]. }
    destruct (resolve m) as [r|] eqn:Hr.
    + destruct (IH limit (count + 1) r) as (Hlen & Hnth & Hstop); [lia|].
      split_and!.
      * simpl. lia.
      * intros [|j] x; simpl.
        -- by intros [= ->].
        -- intros Hx. apply (Hnth j x Hx).
      * intros [|k] mk Hk; simpl.
        -- intros [= <-] Hmk. congruence.
        -- intros Hcur Hmk. rewrite ?Hr in Hcur. f_equal.
           apply (Hstop k mk); [lia | done | done].
    + split_and!; [simpl; lia | done |].
      intros [|k] mk _; simpl; rewrite ?Hr; done.
Qed.

(** More fuel than [limit - count] turns changes nothing: the walk never
    stops for lack of fuel. *)
Lemma reply_loop_fuel fuel limit count m :
  (Z.to_nat (limit - count) ≤ fuel)%nat →
  loop fuel limit count m
  = loop (Z.to_nat (limit - count)) limit count m.
Proof.
  revert limit count m.
  induction fuel as [|fuel IH]; intros limit count m Hfuel.
  - by replace (Z.to_nat (limit - count)) with O by lia.
  - destruct (decide (count >= limit)) as [Hge|Hlt].
    + replace (Z.to_nat (limit - count)) with O by lia.
      simpl. by rewrite decide_True.
    + replace (Z.to_nat (limit - count))
        with (S (Z.to_nat (limit - (count + 1)))) by lia.
      simpl. rewrite !decide_False by done.
      destruct (resolve m) as [r|]; [|done].
      f_equal. apply IH. lia.
Qed.

(** C3. The walk yields at most [limit] messages, each the next ancestor
    along the chain; and when, fewer than [limit] hops in, it stands on a
    message that is not a reply, has no usable reference, or whose
    reference cannot be resolved, it ends there with that shorter prefix
    and no error. *)
Theorem reply_history_bounded (message : Message) (limit : Z) :
  let yielded := reply_history fetch_message message limit in
  (length yielded ≤ Z.to_nat limit)%nat
  ∧ (0 <= limit → Z.of_nat (length yielded) <= limit)
  ∧ (∀ j x, yielded !! j = Some x → after (S j) message = Some x)
  ∧ (∀ k m, Z.of_nat k < limit →
            after k message = Some m →
            not_a_reply m ∨ no_reference m ∨ resolution_fails fetch_message m →
            length yielded = k ∧ Z.of_nat (length yielded) < limit).
Proof.
  intros yielded. unfold yielded, reply_history.
  destruct (reply_loop_spec (Z.to_nat limit) limit 0 message)
    as (Hlen & Hnth & Hstop); [lia|].
  replace (limit - 0) with limit in * by lia.
  split_and!; [done | lia | done |].
  intros k m Hk Hcur Hbreak%resolve_reply_None.
  rewrite (Hstop k m Hk Hcur Hbreak). done.
Qed.
End ReplyHistoryFacts.

(** ** The scenario of the specification *)

(** C4. With a reply limit of 2, a trigger [M5] replying to [M4], which
    replies to [M3] (not itself a reply), and a history window [M1; M2; M3],
    the assembled context is [M1; M2; M3; M4; M5] when the five messages are
    distinct and were created in that order. *)
Theorem scenario_chain_meets_history
    (fetch_message : Z → option Message) (history : Z → Message → list Message)
    (message_limit : Z) (M1 M2 M3 M4 M5 : Message) :
  resolve_reply fetch_message M5 = Some M4 →
  resolve_reply fetch_message M4 = Some M3 →
  not_a_reply M3 →
  history message_limit M5 = [M1; M2; M3] →
  NoDup (msg_id <$> [M1; M2; M3; M4; M5]) →
  created_at M1 < created_at M2 →
  created_at M2 < created_at M3 →
  created_at M3 < created_at M4 →
  created_at M4 < created_at M5 →
  reply_history fetch_message M5 2 = [M4; M3]
  ∧ context_of fetch_message history 2 message_limit M5 = [M1; M2; M3; M4; M5].
Proof.
  intros H5 H4 _ Hh Hnd Ht12 Ht23 Ht34 Ht45.
  assert (Hchain : reply_history fetch_message M5 2 = [M4; M3]).
  { unfold reply_history. change (Z.to_nat 2) with 2%nat. simpl.
    destruct (decide (0 >= 2)); [lia|]. rewrite H5.
    destruct (decide (0 + 1 >= 2)); [lia|]. by rewrite H4. }
  split; [done|].
  unfold context_of. rewrite Hchain, Hh.
  unfold assemble, distinct_messages, PyDict.of_pairs, PyDict.values.
  simpl in Hnd.
  repeat (apply NoDup_cons in Hnd as [? Hnd]).
  repeat match goal with
         | H : _ ∉ _ :: _ |- _ => apply not_elem_of_cons in H as [? ?]
         end.
  simpl.
  repeat (destruct (decide (msg_id _ = msg_id _)); try congruence; simpl).
  repeat (destruct (decide (created_at _ <= created_at _)); try lia; simpl).
  done.
Qed.

Lemma scenario_chain_meets_history_witness :
  context_of scenario_fetch (λ _ _, [scenario_M1; scenario_M2; scenario_M3])
    2 10 scenario_M5
  = [scenario_M1; scenario_M2; scenario_M3; scenario_M4; scenario_M5].
Proof.
  refine (proj2 (scenario_chain_meets_history scenario_fetch
            (λ _ _, [scenario_M1; scenario_M2; scenario_M3]) 10
            scenario_M1 scenario_M2 scenario_M3 scenario_M4 scenario_M5
            _ _ _ _ _ _ _ _ _)).
  - reflexivity.
  - reflexivity.
  - unfold not_a_reply. simpl. discriminate.
  - reflexivity.
  - apply (bool_decide_unpack _). vm_compute. exact I.
  - reflexivity.
  - reflexivity.
  - reflexivity.
  - reflexivity.
Defined.

(** ** Delivering the answer *)

Lemma respond_nonempty (text : string) :
  text ≠ ""%string →
  respond (Some text)
  = if decide (String.length text ≤ MAX_LENGTH)%nat then Reply text None
    else Reply "Response was too long, uploaded as file:"
               (Some ("response.txt"%string, text)).
Proof. intros Hne. unfold respond. by destruct (decide (text = ""%string)). Qed.




(** C10. An empty or missing answer is never sent as it is: the bot replies
    with the fixed notice, without a file. The choice between the inline
    reply and the file is made for non-empty texts only; an exception of the
    model call yields a non-empty text. *)
Theorem empty_response_notice :
  respond (response_text_of (ChatReturned None)) = Reply "No response generated." None
  ∧ respond (response_text_of (ChatReturned (Some ""%string)))
    = Reply "No response generated." None
  ∧ respond (Some ""%string) ≠ Reply "" None
  ∧ (∀ text, respond (Some text) = Reply "No response generated." None →
             text = ""%string ∨ text = "No response generated."%string)
  ∧ (∀ text, text ≠ ""%string →
       respond (response_text_of (ChatReturned (Some text)))
       = if decide (String.length text ≤ MAX_LENGTH)%nat then Reply text None
         else Reply "Response was too long, uploaded as file:"
                    (Some ("response.txt"%string, text)))
  ∧ (∀ e, response_text_of (ChatRaised e) ≠ Some ""%string
          ∧ response_text_of (ChatRaised e) ≠ None).
Proof.
  split_and!; try done.
  - intros text. unfold respond.
    destruct (decide (text = ""%string)); [by left|].
    destruct (decide (String.length text ≤ MAX_LENGTH)%nat); [|done].
    intros [= ->]. by right.
  - intros text Hne. by apply respond_nonempty.
Qed.

(** ** [int(str(z)) = z] *)

Section IntOfStr.
Import DecimalString.




Lemma digit_not_underscore a : is_digit a = true → a ≠ "_"%char.
Proof. intros Hd ->. by vm_compute in Hd. Qed.








End IntOfStr.

(** ** Settings objects *)

Lemma set_objects_insert_insert r (a b : gmap string Value) w :
  set_objects <[r := a]> (set_objects <[r := b]> w) = set_objects <[r := a]> w.
Proof. destruct w. unfold set_objects. simpl. by rewrite insert_insert_eq. Qed.

Lemma save_saved self mgr w :
  managers w !! self = Some mgr → save self w = (Returned (), saved self mgr w).
Proof.
  intros Hm. unfold save, save_body, saved. py_unfold. rewrite Hm.
  destruct (serializable_of _ _) as [ser|]; [|done].
  destruct (decide (path mgr ∈ read_only w)); simpl;
    [by rewrite decide_True | rewrite decide_False by done].
  by destruct (json_dump ser).
Qed.

(** An assignment that finds no callable in [on_change], or that sets
    [on_change] itself, only stores the value. *)
Lemma setattr_quiet w self o key value :
  objects w !! self = Some o →
  key ∈ field_names →
  key = "on_change"%string ∨ (∀ c, o !! "on_change"%string ≠ Some (VFunc c)) →
  setattr self key value w
  = (Returned (), set_objects <[self := <[key := value]> o]> w).
Proof.
  intros Ho Hkey Hquiet. unfold setattr, object_setattr, getattr. py_unfold.
  rewrite Ho. destruct (decide (key ∈ field_names)); [|done].
  destruct (decide (key ≠ "on_change"%string)) as [Hne|]; [|done].
  simpl. rewrite lookup_insert_eq. rewrite lookup_insert_ne by done.
  destruct Hquiet as [?|Hq]; [done|].
  destruct (o !! "on_change"%string) as [[]|] eqn:Hoc; try done.
  by destruct (Hq c).
Qed.

(** An assignment to a data field of an object that carries a manager's hook
    stores the value and then runs that manager's [save]. *)
Lemma setattr_notifies w self o key value manager :
  objects w !! self = Some o →
  key ∈ data_fields →
  o !! "on_change"%string = Some (VFunc (SaveSettings manager)) →
  setattr self key value w
  = save manager (set_objects <[self := <[key := value]> o]> w).
Proof.
  intros Ho Hkey Hhook. unfold setattr, object_setattr, getattr. py_unfold.
  rewrite Ho.
  assert (key ∈ field_names ∧ key ≠ "on_change"%string) as [Hf Hne].
  { unfold data_fields in Hkey.
    repeat (apply elem_of_cons in Hkey as [->|Hkey];
            [split; [by apply (bool_decide_unpack _)|done]|]).
    by apply elem_of_nil in Hkey. }
  destruct (decide (key ∈ field_names)); [|done].
  destruct (decide (key ≠ "on_change"%string)); [|done].
  simpl. rewrite lookup_insert_eq. rewrite lookup_insert_ne by done.
  rewrite Hhook. simpl. done.
Qed.

Lemma data_field_is_field key :
  key ∈ data_fields → key ∈ field_names ∧ key ≠ "on_change"%string.
Proof.
  unfold data_fields. intros Hkey.
  repeat (apply elem_of_cons in Hkey as [->|Hkey];
          [split; [by apply (bool_decide_unpack _)|done]|]).
  by apply elem_of_nil in Hkey.
Qed.

Lemma field_names_split : field_names = data_fields ++ ["on_change"%string].
Proof. reflexivity. Qed.

Lemma set_objects_insert_id r (o : gmap string Value) w :
  objects w !! r = Some o → set_objects <[r := o]> w = w.
Proof. intros Ho. destruct w. unfold set_objects. simpl in *. by rewrite insert_id. Qed.

(** Assigning data fields to an object whose [on_change] slot is still unset
    calls nothing. *)
Lemma assign_all_data r data :
  ∀ w o,
    objects w !! r = Some o →
    o !! "on_change"%string = None →
    Forall (λ kv, kv.1 ∈ data_fields) data →
    assign_all r data w
    = (Returned (), set_objects <[r := foldl (λ o kv, <[kv.1 := kv.2]> o) o data]> w).
Proof.
  induction data as [|[k v] data IH]; intros w o Ho Hoc Hdata; simpl.
  - by rewrite set_objects_insert_id.
  - apply Forall_cons in Hdata as [Hk Hdata]. simpl in Hk.
    apply data_field_is_field in Hk as [Hk Hne].
    unfold mbind, Py_bind.
    rewrite (setattr_quiet w r o k v Ho Hk); [|right; by rewrite Hoc].
    rewrite (IH _ (<[k := v]> o)); [| | |done].
    + by rewrite set_objects_insert_insert.
    + simpl. by rewrite lookup_insert_eq.
    + by rewrite lookup_insert_ne.
Qed.

Lemma assign_all_app r a b w :
  assign_all r (a ++ b) w
  = match assign_all r a w with
    | (Returned _, w') => assign_all r b w'
    | (Raised e, w') => (Raised e, w')
    end.
Proof.
  revert w. induction a as [|[k v] a IH]; intros w; simpl; [done|].
  unfold mbind, Py_bind. destruct (setattr r k v w) as [[[]|e] w']; [|done].
  apply IH.
Qed.

Lemma bind_arguments_names kwargs args :
  bind_arguments kwargs = Some args → args.*1 = field_names.
Proof.
  unfold bind_arguments. case_decide; [|done]. unfold fields. simpl.
  repeat destruct (PyDict.get _ kwargs); intros Hs; cbv in Hs;
    by simplify_eq.
Qed.

Lemma bind_arguments_is_Some kwargs :
  is_Some (bind_arguments kwargs)
  ↔ Forall (λ kv, kv.1 ∈ field_names) kwargs
    ∧ is_Some (PyDict.get "guild_id"%string kwargs).
Proof.
  unfold bind_arguments. case_decide as Hall; [|split; [by intros [? ?]|tauto]].
  unfold fields. simpl.
  destruct (PyDict.get "guild_id"%string kwargs).
  - repeat destruct (PyDict.get _ kwargs); split; eauto.
  - split; [by intros [? ?] | by intros [_ [? ?]]].
Qed.

Lemma args_split (args : list (string * Value)) :
  args.*1 = field_names →
  ∃ data hook, args = data ++ [("on_change"%string, hook)]
               ∧ data.*1 = data_fields.
Proof.
  intros Hnames.
  unfold field_names, fields in Hnames. simpl in Hnames.
  do 7 (destruct args as [|[? ?] args]; [done|]).
  destruct args; [|done]. simpl in Hnames. simplify_eq.
  by eexists [_; _; _; _; _; _], _.
Qed.

(** The constructor: a fresh instance with every slot assigned, and no call
    of the hook on the way. *)
Lemma GuildSettings_new_spec kwargs args w :
  bind_arguments kwargs = Some args →
  GuildSettings_new kwargs w
  = (Returned (fresh (dom (objects w))),
     set_objects <[fresh (dom (objects w)) := object_of args]> w).
Proof.
  intros Hbind. unfold GuildSettings_new. py_unfold. rewrite Hbind.
  set (r := fresh (dom (objects w))).
  destruct (args_split args (bind_arguments_names _ _ Hbind))
    as (data & hook & -> & Hdata).
  rewrite assign_all_app.
  rewrite (assign_all_data r data _ ∅).
  - simpl. unfold mbind, Py_bind.
    erewrite setattr_quiet; [| simpl; apply lookup_insert_eq
                             | by apply (bool_decide_unpack _) | by left].
    rewrite !set_objects_insert_insert.
    unfold object_of. by rewrite foldl_app.
  - simpl. apply lookup_insert_eq.
  - done.
  - rewrite <- Hdata. clear. induction data as [|[k v] data IH]; simpl.
    + constructor.
    + constructor; [simpl; left | ].
      eapply Forall_impl; [exact IH|]. intros [k' v']. simpl. by right.
Qed.

Lemma GuildSettings_new_TypeError kwargs w :
  bind_arguments kwargs = None → GuildSettings_new kwargs w = (Raised TypeError, w).
Proof. intros Hbind. unfold GuildSettings_new. py_unfold. by rewrite Hbind. Qed.

(** *** Worlds reached without saving *)

Lemma no_save_refl w : no_save w w.
Proof. unfold no_save. split_and!; try done. eauto. Qed.

Lemma no_save_trans w1 w2 w3 : no_save w1 w2 → no_save w2 w3 → no_save w1 w3.
Proof.
  intros (Hf1 & Hs1 & Hr1 & Ho1 & Hm1) (Hf2 & Hs2 & Hr2 & Ho2 & Hm2).
  unfold no_save. split_and!; try congruence.
  - by trans (objects w2).
  - intros self mgr Hself.
    destruct (Hm1 _ _ Hself) as (mgr2 & Hself2 & Hp2).
    destruct (Hm2 _ _ Hself2) as (mgr3 & Hself3 & Hp3).
    exists mgr3. split; [done | congruence].
Qed.

Lemma no_save_alloc w (o : gmap string Value) :
  no_save w (set_objects <[fresh (dom (objects w)) := o]> w).
Proof.
  unfold no_save. simpl. split_and!; try done; [|eauto].
  apply insert_subseteq, not_elem_of_dom, is_fresh.
Qed.

Lemma no_save_set_manager w self mgr d :
  managers w !! self = Some mgr →
  no_save w (set_managers <[self := mkManager (path mgr) d]> w).
Proof.
  intros Hself. unfold no_save. simpl. split_and!; try done.
  intros self' mgr' Hself'. destruct (decide (self = self')) as [->|Hne].
  - rewrite lookup_insert_eq. eexists. split; [done|]. simpl. congruence.
  - rewrite lookup_insert_ne by done. eauto.
Qed.

Lemma no_save_new_manager w mgr :
  no_save w (set_managers <[fresh (dom (managers w)) := mgr]> w).
Proof.
  unfold no_save. simpl. split_and!; try done.
  intros self mgr' Hself. rewrite lookup_insert_ne; [eauto|].
  intros <-. apply elem_of_dom_2 in Hself. by apply is_fresh in Hself.
Qed.

Lemma no_save_note_error w msg : no_save w (note_error msg w).
Proof. unfold no_save. simpl. split_and!; try done. eauto. Qed.

Lemma GuildSettings_new_no_save kwargs w :
  no_save w (GuildSettings_new kwargs w).2.
Proof.
  destruct (bind_arguments kwargs) as [args|] eqn:Hbind.
  - rewrite (GuildSettings_new_spec _ _ _ Hbind). apply no_save_alloc.
  - rewrite (GuildSettings_new_TypeError _ _ Hbind). apply no_save_refl.
Qed.

Lemma set_guild_settings_run w self mgr f :
  managers w !! self = Some mgr →
  set_guild_settings self f w
  = (Returned (),
     set_managers <[self := mkManager (path mgr) (f (guild_settings mgr))]> w).
Proof. intros Hself. unfold set_guild_settings. py_unfold. by rewrite Hself. Qed.

(** *** Lookup *)

Lemma getitem_existing w self mgr key r :
  managers w !! self = Some mgr →
  PyDict.get key (guild_settings mgr) = Some r →
  getitem self key w = (Returned r, w).
Proof.
  intros Hself Hget. unfold getitem. py_unfold. rewrite Hself.
  destruct (decide (key ∈ PyDict.keys (guild_settings mgr))) as [|Hnot].
  - simpl. by rewrite Hself, Hget.
  - apply get_None in Hnot. congruence.
Qed.

Lemma object_of_defaults key hook :
  bind_arguments [("guild_id"%string, VInt key); ("on_change"%string, hook)]
  = Some [("guild_id", VInt key);
          ("system_prompt", VStr "You are a helpful assistant.");
          ("model", VStr "llama3");
          ("required_role", VNone);
          ("reply_history", VInt 10);
          ("message_history", VInt 10);
          ("on_change", hook)]%string.
Proof.
  unfold bind_arguments. rewrite decide_True; [done|].
  repeat constructor; by apply (bool_decide_unpack _).
Qed.

Lemma getitem_unseen w self mgr key :
  managers w !! self = Some mgr →
  key ∉ PyDict.keys (guild_settings mgr) →
  getitem self key w
  = (Returned (fresh (dom (objects w))),
     set_managers
       <[self := mkManager (path mgr)
                   (guild_settings mgr ++ [(key, fresh (dom (objects w)))])]>
       (set_objects
          <[fresh (dom (objects w))
              := to_object (default_settings key) (VFunc (SaveSettings self))]> w)).
Proof.
  intros Hself Hnot. unfold getitem.
  unfold mbind at 1, Py_bind at 1. unfold the_manager at 1. py_unfold.
  rewrite Hself. simpl.
  destruct (decide (key ∈ PyDict.keys (guild_settings mgr))); [done|].
  rewrite (GuildSettings_new_spec _ _ _ (object_of_defaults key _)).
  rewrite (set_guild_settings_run _ _ mgr) by done.
  simpl. rewrite lookup_insert_eq. simpl.
  rewrite set_fresh by done.
  rewrite get_app_r by done. simpl. rewrite decide_True by done.
  done.
Qed.

(** *** Loading *)

Lemma set_guild_settings_no_save self f w :
  no_save w (set_guild_settings self f w).2.
Proof.
  destruct (managers w !! self) as [mgr|] eqn:Hself.
  - rewrite (set_guild_settings_run _ _ mgr) by done.
    by apply no_save_set_manager.
  - unfold set_guild_settings. py_unfold. rewrite Hself. apply no_save_refl.
Qed.

Lemma settings_from_data_no_save self data w :
  no_save w (settings_from_data self data w).2.
Proof.
  unfold settings_from_data.
  destruct data; try apply no_save_refl.
  case_decide; [apply no_save_refl | apply GuildSettings_new_no_save].
Qed.

Lemma load_items_no_save self items :
  ∀ w, no_save w (load_items self items w).2.
Proof.
  induction items as [|[gid_str data] items IH]; intros w; simpl.
  - apply no_save_refl.
  - unfold mbind at 1, Py_bind at 1.
    pose proof (settings_from_data_no_save self data w) as H1.
    destruct (settings_from_data self data w) as [[r|e] w1]; [|done].
    simpl in H1. unfold mbind at 1, Py_bind at 1.
    destruct (py_int gid_str) as [key|]; [|done]. simpl.
    unfold mbind at 1, Py_bind at 1. unfold setitem.
    pose proof (set_guild_settings_no_save self (PyDict.set key r) w1) as H2.
    destruct (set_guild_settings self (PyDict.set key r) w1) as [[[]|e] w2];
      simpl in H2.
    + eapply no_save_trans; [|apply IH]. by eapply no_save_trans.
    + by eapply no_save_trans.
Qed.

Lemma load_no_save self w : no_save w (load self w).2.
Proof.
  unfold load. unfold mbind at 1, Py_bind at 1.
  unfold the_manager. py_unfold.
  destruct (managers w !! self) as [mgr|] eqn:Hself; simpl;
    [|apply no_save_refl].
  destruct (decide (files w !! path mgr = None)); simpl;
    [apply no_save_note_error|].
  unfold json_load.
  destruct (files w !! path mgr) as [[v|]|] eqn:Hfile; simpl.
  - assert (Hclear : ∀ w1, no_save w w1 →
              no_save w (note_error "Error loading settings"
                           (set_guild_settings self (λ _, []) w1).2)).
    { intros w1 Hw1. eapply no_save_trans; [exact Hw1|].
      eapply no_save_trans; [apply set_guild_settings_no_save|].
      apply no_save_note_error. }
    destruct v; simpl;
      try (specialize (Hclear w (no_save_refl w));
           by destruct (set_guild_settings self (λ _, []) w) as [[[]|?] ?]).
    pose proof (load_items_no_save self d w) as Hl.
    destruct (load_items self d w) as [[[]|e] w1]; simpl in *; [done|].
    specialize (Hclear w1 Hl).
    by destruct (set_guild_settings self (λ _, []) w1) as [[[]|?] ?].
  - pose proof (set_guild_settings_no_save self (λ _, []) w) as Hs.
    destruct (set_guild_settings self (λ _, []) w) as [[[]|?] w1]; simpl in *;
      [|done].
    eapply no_save_trans; [exact Hs | apply no_save_note_error].
  - done.
Qed.

Lemma SettingsManager_new_no_save p w :
  no_save w (SettingsManager_new p w).2.
Proof.
  unfold SettingsManager_new. py_unfold.
  set (w1 := set_managers _ w).
  assert (no_save w w1) as H1 by apply no_save_new_manager.
  pose proof (load_no_save (fresh (dom (managers w))) w1) as H2.
  destruct (load _ w1) as [[[]|e] w2]; simpl in *; by eapply no_save_trans.
Qed.

Lemma getitem_no_save self key w : no_save w (getitem self key w).2.
Proof.
  destruct (managers w !! self) as [mgr|] eqn:Hself.
  - destruct (PyDict.get key (guild_settings mgr)) as [r|] eqn:Hget.
    + rewrite (getitem_existing _ _ mgr _ r) by done. apply no_save_refl.
    + apply get_None in Hget. rewrite (getitem_unseen _ _ mgr) by done. simpl.
      eapply no_save_trans; [apply no_save_alloc|].
      by apply no_save_set_manager.
  - unfold getitem. py_unfold. rewrite Hself. apply no_save_refl.
Qed.

(** ** Construction is silent, assignment is not *)

Lemma saved_effects self mgr w :
  objects (saved self mgr w) = objects w
  ∧ managers (saved self mgr w) = managers w
  ∧ read_only (saved self mgr w) = read_only w
  ∧ save_calls (saved self mgr w) = save_calls w ++ [self].
Proof.
  unfold saved. destruct (serializable_of _ _); [|done].
  case_decide; [done|]. by destruct (json_dump _).
Qed.

Lemma to_object_hook s hook :
  to_object s hook !! "on_change"%string = Some hook.
Proof. unfold to_object. apply lookup_insert_eq. Qed.

(** C9. Building a settings object never runs the hook: no call of [save]
    and no change of any file comes from the constructor, from [load], from
    creating a manager, or from a lookup, whether or not it creates the
    entry. The first assignment to a data field of an entry created by a
    lookup does run [save]. *)
Theorem construction_never_saves :
  (∀ kwargs w,
     save_calls (GuildSettings_new kwargs w).2 = save_calls w
     ∧ files (GuildSettings_new kwargs w).2 = files w)
  ∧ (∀ self w,
       save_calls (load self w).2 = save_calls w
       ∧ files (load self w).2 = files w)
  ∧ (∀ p w,
       save_calls (SettingsManager_new p w).2 = save_calls w
       ∧ files (SettingsManager_new p w).2 = files w)
  ∧ (∀ self key w,
       save_calls (getitem self key w).2 = save_calls w
       ∧ files (getitem self key w).2 = files w)
  ∧ (∀ self mgr key field value w,
       managers w !! self = Some mgr →
       key ∉ PyDict.keys (guild_settings mgr) →
       field ∈ data_fields →
       ∃ r, (getitem self key w).1 = Returned r
            ∧ save_calls (setattr r field value (getitem self key w).2).2
              = save_calls w ++ [self]).
Proof.
  split_and!.
  - intros kwargs w.
    by destruct (GuildSettings_new_no_save kwargs w) as (? & ? & _).
  - intros self w. by destruct (load_no_save self w) as (? & ? & _).
  - intros p w. by destruct (SettingsManager_new_no_save p w) as (? & ? & _).
  - intros self key w. by destruct (getitem_no_save self key w) as (? & ? & _).
  - intros self mgr key field value w Hself Hkey Hfield.
    rewrite (getitem_unseen _ _ mgr) by done. simpl.
    eexists. split; [done|].
    erewrite setattr_notifies;
      [| simpl; apply lookup_insert_eq | done | apply to_object_hook].
    erewrite save_saved; [|simpl; apply lookup_insert_eq].
    simpl. by rewrite (proj2 (proj2 (proj2 (saved_effects _ _ _)))).
Qed.

(** ** Write-through *)

Lemma asdict_constructed o : constructed o → is_Some (asdict o).
Proof.
  intros Hc. unfold asdict. apply fmap_is_Some, mapM_is_Some.
  eapply Forall_impl; [exact Hc|]. intros name [v Hv]. simpl.
  rewrite Hv. by eexists.
Qed.

Lemma constructed_to_object s hook : constructed (to_object s hook).
Proof.
  unfold constructed, to_object, field_names, fields. simpl.
  repeat constructor; by simplify_map_eq.
Qed.


(** The dict comprehension of [save] covers every guild of the store. *)
Lemma serializable_of_Some (objs : gmap nat (gmap string Value)) d :
  NoDup (PyDict.keys d) →
  Forall (λ kr, ∃ o, objs !! kr.2 = Some o ∧ constructed o) d →
  ∃ payload,
    serializable_of objs d = Some payload
    ∧ PyDict.keys payload = PyDict.keys d
    ∧ ∀ gid r, PyDict.get gid d = Some r →
        ∃ o, objs !! r = Some o ∧ PyDict.get gid payload = asdict o.
Proof.
  intros Hnd Hall. unfold serializable_of.
  set (f := λ '(gid, r), o ← objs !! r; fs ← asdict o; Some (gid, fs)).
  assert (Hsome : is_Some (mapM f d)).
  { apply mapM_is_Some. eapply Forall_impl; [exact Hall|].
    intros [gid r] (o & Ho & Hc). simpl in *. rewrite Ho. simpl.
    destruct (asdict_constructed o Hc) as [fs ->]. by eexists. }
  destruct Hsome as [l Hl]. rewrite Hl. simpl.
  apply mapM_Some in Hl.
  assert (Hkeys : PyDict.keys l = PyDict.keys d).
  { clear Hnd Hall. unfold PyDict.keys.
    induction Hl as [|[gid r] [gid' fs] d l Hf _ IH]; [done|].
    csimpl. simpl in Hf. destruct (objs !! r) as [o|]; [|done]. simpl in Hf.
    destruct (asdict o); [|done]. simpl in Hf. simplify_eq. by rewrite IH. }
  exists l. rewrite of_pairs_id by (unfold PyDict.keys in *; by rewrite Hkeys).
  split_and!; [done | done |].
  intros gid r. clear Hnd Hall Hkeys.
  induction Hl as [|[gid0 r0] [gid' fs] d l Hf _ IH]; [done|].
  simpl in Hf. destruct (objs !! r0) as [o|] eqn:Ho; [|done]. simpl in Hf.
  destruct (asdict o) eqn:Hfs; [|done]. simpl in Hf. simplify_eq. simpl.
  case_decide; [|done]. intros [= <-]. exists o. by rewrite Hfs.
Qed.

Lemma store_hooked_getitem w self gid :
  store_hooked w self →
  ∃ r w1 mgr1,
    getitem self gid w = (Returned r, w1)
    ∧ store_hooked w1 self
    ∧ managers w1 !! self = Some mgr1
    ∧ PyDict.get gid (guild_settings mgr1) = Some r
    ∧ no_save w w1.
Proof.
  intros (mgr & Hself & Hnd & Hall).
  destruct (PyDict.get gid (guild_settings mgr)) as [r|] eqn:Hget.
  - exists r, w, mgr. rewrite (getitem_existing _ _ mgr _ r) by done.
    split_and!; try done; [by exists mgr | apply no_save_refl].
  - apply get_None in Hget.
    rewrite (getitem_unseen _ _ mgr) by done.
    set (r := fresh (dom (objects w))).
    eexists r, _, _. split; [done|].
    assert (Hfresh : objects w !! r = None)
      by apply not_elem_of_dom, is_fresh.
    split_and!.
    + eexists. split; [simpl; apply lookup_insert_eq|]. simpl. split.
      * unfold PyDict.keys in *. rewrite fmap_app. simpl.
        apply NoDup_app. split_and!; [done | | apply NoDup_singleton].
        by intros x Hx ->%list_elem_of_singleton.
      * apply Forall_app. split.
        -- eapply Forall_impl; [exact Hall|].
           intros [k r'] (o & Ho & Hc & Hh). simpl in *.
           exists o. rewrite lookup_insert_ne by congruence. done.
        -- constructor; [|constructor]. simpl.
           eexists. rewrite lookup_insert_eq.
           split_and!; [done | apply constructed_to_object | apply to_object_hook].
    + simpl. apply lookup_insert_eq.
    + simpl. rewrite get_app_r by done. simpl. by rewrite decide_True.
    + eapply no_save_trans; [apply no_save_alloc|].
      by apply no_save_set_manager.
Qed.


Lemma store_hooked_lookup w self mgr gid r :
  store_hooked w self →
  managers w !! self = Some mgr →
  PyDict.get gid (guild_settings mgr) = Some r →
  ∃ o, objects w !! r = Some o
       ∧ o !! "on_change"%string = Some (VFunc (SaveSettings self)).
Proof.
  intros (mgr' & Hself & _ & Hall) Hself' Hget. simplify_eq.
  apply get_Some_elem_of in Hget.
  rewrite Forall_forall in Hall.
  destruct (Hall _ Hget) as (o & Ho & _ & Hh). eauto.
Qed.


(** ** What [load] accepts and what it rejects *)

Lemma field_name_cases name :
  name ∈ field_names ↔ name ∈ data_fields ∨ name = "on_change"%string.
Proof.
  rewrite field_names_split, elem_of_app, list_elem_of_singleton. done.
Qed.

Lemma on_change_not_data : "on_change"%string ∉ data_fields.
Proof. by apply (bool_decide_unpack _). Qed.

(** The keyword check of the constructor call in [load], in terms of the
    entry alone. *)
Lemma kwargs_accepted (d : list (string * Value)) hook :
  (Forall (λ name, name ∈ data_fields) (PyDict.keys d)
   ∧ is_Some (PyDict.get "guild_id"%string d))
  ↔ (("on_change"%string ∉ PyDict.keys d)
     ∧ is_Some (bind_arguments (d ++ [("on_change"%string, hook)]))).
Proof.
  rewrite bind_arguments_is_Some. unfold PyDict.keys.
  rewrite Forall_app, Forall_singleton. rewrite Forall_fmap.
  assert (Hgid : is_Some (PyDict.get "guild_id"%string
                            (d ++ [("on_change"%string, hook)]))
                 ↔ is_Some (PyDict.get "guild_id"%string d)).
  { destruct (PyDict.get "guild_id"%string d) as [v|] eqn:Hg.
    - rewrite get_app_l, Hg; [done|].
      apply get_Some_elem_of in Hg.
      by apply (list_elem_of_fmap_2 fst) in Hg.
    - apply get_None in Hg. rewrite get_app_r by done. simpl.
      split; by intros [? ?]. }
  rewrite Hgid. split.
  - intros [Hall Hg]. split_and!; [| |by rewrite field_name_cases; right|done].
    + intros (kv & Hk & Hkv)%list_elem_of_fmap.
      rewrite Forall_forall in Hall. specialize (Hall kv Hkv). simpl in Hall.
      rewrite <- Hk in Hall. by apply on_change_not_data in Hall.
    + eapply Forall_impl; [exact Hall|]. intros kv Hkv. simpl in *.
      rewrite field_name_cases. by left.
  - intros (Hoc & (Hall & _) & Hg). split; [|done].
    rewrite Forall_forall in Hall. apply Forall_forall. intros kv Hkv. simpl.
    specialize (Hall kv Hkv). simpl in Hall.
    apply field_name_cases in Hall as [?|Heq]; [done|].
    exfalso. apply Hoc. rewrite <- Heq. by apply (list_elem_of_fmap_2 fst).
Qed.

(** One turn of the loop of [load]: an accepted entry is constructed and
    stored, a rejected one raises and leaves files and saves alone. *)
Lemma load_items_cons_accepted self mgr gid_str d rest w :
  managers w !! self = Some mgr →
  entry_accepted (gid_str, VDict d) = true →
  ∃ key args,
    py_int gid_str = Some key
    ∧ bind_arguments (d ++ [("on_change"%string, VFunc (SaveSettings self))])
      = Some args
    ∧ load_items self ((gid_str, VDict d) :: rest) w
      = load_items self rest
          (set_managers
             <[self := mkManager (path mgr)
                         (PyDict.set key (fresh (dom (objects w)))
                            (guild_settings mgr))]>
             (set_objects <[fresh (dom (objects w)) := object_of args]> w)).
Proof.
  intros Hself Hacc. unfold entry_accepted in Hacc. simpl in Hacc.
  apply andb_prop in Hacc as [[Hkeys Hgid]%andb_prop Hint].
  apply bool_decide_eq_true in Hkeys, Hgid, Hint.
  destruct Hint as [key Hkey].
  destruct (proj1 (kwargs_accepted d (VFunc (SaveSettings self)))
              (conj Hkeys Hgid)) as [Hoc [args Hargs]].
  exists key, args. split_and!; [done | done |].
  simpl. unfold mbind at 1, Py_bind at 1.
  rewrite decide_False by done.
  rewrite (GuildSettings_new_spec _ _ _ Hargs).
  rewrite Hkey. py_unfold. unfold setitem.
  by rewrite (set_guild_settings_run _ _ mgr).
Qed.

Lemma load_items_cons_rejected self gid_str data rest w :
  entry_accepted (gid_str, data) = false →
  ∃ e, (load_items self ((gid_str, data) :: rest) w).1 = Raised e.
Proof.
  intros Hrej. simpl. unfold mbind at 1, Py_bind at 1.
  unfold settings_from_data.
  destruct data as [| | | | | |d|]; try by eexists.
  destruct (decide ("on_change"%string ∈ PyDict.keys d)); [by eexists|].
  destruct (bind_arguments (d ++ [("on_change"%string, VFunc (SaveSettings self))]))
    as [args|] eqn:Hargs.
  - rewrite (GuildSettings_new_spec _ _ _ Hargs).
    destruct (py_int gid_str) as [key|] eqn:Hkey; py_unfold; [|by eexists].
    exfalso.
    destruct (proj2 (kwargs_accepted d (VFunc (SaveSettings self))))
      as [Hkeys Hgid]; [split; [done | by eexists]|].
    unfold entry_accepted in Hrej. simpl in Hrej.
    rewrite Hkey in Hrej.
    rewrite !bool_decide_eq_true_2 in Hrej; [done | by eexists | done | done].
  - rewrite (GuildSettings_new_TypeError _ _ Hargs). by eexists.
Qed.

Lemma load_items_rejected self items :
  ∀ w mgr,
    managers w !! self = Some mgr →
    forallb entry_accepted items = false →
    ∃ e, (load_items self items w).1 = Raised e.
Proof.
  induction items as [|[gid_str data] items IH]; intros w mgr Hself Hrej;
    [done|].
  simpl in Hrej. apply andb_false_iff in Hrej.
  destruct (entry_accepted (gid_str, data)) eqn:Hacc.
  - destruct Hrej as [?|Hrej]; [done|].
    assert (∃ d, data = VDict d) as [d ->].
    { unfold entry_accepted in Hacc. simpl in Hacc.
      destruct data; try done. by eexists. }
    destruct (load_items_cons_accepted self mgr gid_str d items w Hself Hacc)
      as (key & args & _ & _ & ->).
    eapply IH; [|done]. simpl. apply lookup_insert_eq.
  - by apply load_items_cons_rejected.
Qed.

Lemma load_rejected self mgr f w :
  managers w !! self = Some mgr →
  files w !! path mgr = Some f →
  accepted f = false →
  ∃ w', load self w = (Returned (), w')
        ∧ managers w' !! self = Some (mkManager (path mgr) [])
        ∧ no_save w w'.
Proof.
  intros Hself Hfile Hrej.
  assert (Hclear : ∀ w1, no_save w w1 →
    ∃ w', (set_guild_settings self (λ _, []);;
           log_error "Error loading settings") w1 = (Returned (), w')
          ∧ managers w' !! self = Some (mkManager (path mgr) [])
          ∧ no_save w w').
  { intros w1 Hw1.
    destruct Hw1 as (Hf & Hs & Hr & Ho & Hm).
    destruct (Hm _ _ Hself) as (mgr1 & Hself1 & Hpath).
    py_unfold. rewrite (set_guild_settings_run _ _ mgr1) by done.
    eexists. split; [done|]. split.
    - simpl. rewrite lookup_insert_eq. by rewrite Hpath.
    - eapply no_save_trans; [|apply no_save_note_error].
      eapply no_save_trans; [|by apply no_save_set_manager].
      by repeat split. }
  unfold load. unfold mbind at 1, Py_bind at 1.
  unfold the_manager at 1. py_unfold. rewrite Hself. simpl.
  rewrite decide_False by by rewrite Hfile.
  unfold json_load. rewrite Hfile.
  destruct f as [v|]; [|apply Hclear, no_save_refl].
  destruct v as [| | | | | |items|]; try (apply Hclear, no_save_refl).
  simpl in *.
  destruct (load_items_rejected self items w mgr Hself Hrej) as [e He].
  pose proof (load_items_no_save self items w) as Hns.
  destruct (load_items self items w) as [[[]|e'] w1]; [done|].
  by apply Hclear.
Qed.





(** ** Saving and loading again *)

















(** ** Stores made by a manager carry its hook *)

Lemma bind_arguments_hook d hook args :
  "on_change"%string ∉ PyDict.keys d →
  bind_arguments (d ++ [("on_change"%string, hook)]) = Some args →
  constructed (object_of args)
  ∧ object_of args !! "on_change"%string = Some hook.
Proof.
  intros Hoc. unfold bind_arguments. case_decide; [|done].
  unfold fields. simpl.
  rewrite (get_app_r "on_change"%string d) by done. simpl.
  destruct (PyDict.get "guild_id"%string _); [|done].
  repeat destruct (PyDict.get _ (d ++ _)); intros Hs; cbv in Hs; simplify_eq;
    (split; [|apply lookup_insert_eq]);
    unfold constructed, object_of, field_names, fields; simpl;
    repeat constructor; by simplify_map_eq.
Qed.

Lemma store_hooked_store w self mgr key r o :
  store_hooked w self →
  managers w !! self = Some mgr →
  objects w !! r = None →
  constructed o →
  o !! "on_change"%string = Some (VFunc (SaveSettings self)) →
  store_hooked
    (set_managers
       <[self := mkManager (path mgr) (PyDict.set key r (guild_settings mgr))]>
       (set_objects <[r := o]> w)) self.
Proof.
  intros (mgr0 & Hself0 & Hnd & Hall) Hself Hr Hc Hh.
  assert (mgr0 = mgr) as -> by congruence.
  eexists. split; [simpl; apply lookup_insert_eq|]. simpl. split.
  - by apply NoDup_keys_set.
  - apply Forall_forall. intros [k r'] [[= -> ->]|Hin]%elem_of_set; simpl.
    + exists o. by rewrite lookup_insert_eq.
    + rewrite Forall_forall in Hall.
      destruct (Hall _ Hin) as (o' & Ho' & Hc' & Hh'). simpl in *.
      exists o'. rewrite lookup_insert_ne by congruence. done.
Qed.

Lemma load_items_accepted_hooked self items :
  ∀ w,
    store_hooked w self →
    forallb entry_accepted items = true →
    ∃ w', load_items self items w = (Returned (), w') ∧ store_hooked w' self.
Proof.
  induction items as [|[gid_str data] items IH]; intros w Hhooked Hacc.
  - by exists w.
  - simpl in Hacc. apply andb_prop in Hacc as [Hacc Hrest].
    assert (∃ d, data = VDict d) as [d ->].
    { unfold entry_accepted in Hacc. simpl in Hacc.
      destruct data; try done. by eexists. }
    destruct Hhooked as (mgr & Hself & Hhooked).
    destruct (load_items_cons_accepted self mgr gid_str d items w Hself Hacc)
      as (key & args & _ & Hargs & ->).
    apply IH; [|done].
    assert (Hoc : "on_change"%string ∉ PyDict.keys d).
    { unfold entry_accepted in Hacc. simpl in Hacc.
      apply andb_prop in Hacc as [[Hkeys _]%andb_prop _].
      apply bool_decide_eq_true in Hkeys.
      intros Hin. rewrite Forall_forall in Hkeys.
      by apply on_change_not_data, Hkeys. }
    destruct (bind_arguments_hook d _ args Hoc Hargs) as [Hc Hh].
    apply store_hooked_store; try done.
    + by exists mgr.
    + apply not_elem_of_dom, is_fresh.
Qed.

(** Whatever the file holds, a new manager's store carries the manager's
    hook on every instance. *)
Lemma SettingsManager_new_hooked p w :
  (SettingsManager_new p w).1 = Returned (fresh (dom (managers w)))
  ∧ store_hooked (SettingsManager_new p w).2 (fresh (dom (managers w))).
Proof.
  unfold SettingsManager_new. py_unfold.
  set (self := fresh (dom (managers w))).
  set (w1 := set_managers <[self := mkManager p []]> w).
  assert (Hself : managers w1 !! self = Some (mkManager p []))
    by (simpl; apply lookup_insert_eq).
  assert (Hempty : store_hooked w1 self).
  { eexists. split; [exact Hself|]. simpl. split; constructor. }
  destruct (files w !! p) as [f|] eqn:Hfile.
  - destruct (accepted f) eqn:Hacc.
    + destruct f as [[| | | | | |items|]|]; try done. simpl in Hacc.
      destruct (load_items_accepted_hooked self items w1 Hempty Hacc)
        as (w' & Hload & Hhooked).
      assert (Hrun : load self w1 = (Returned (), w')).
      { unfold load. unfold mbind at 1, Py_bind at 1.
        unfold the_manager at 1. py_unfold. rewrite lookup_insert_eq. simpl.
        rewrite decide_False by by rewrite Hfile.
        unfold json_load. change (files w1) with (files w). rewrite Hfile.
        simpl. by rewrite Hload. }
      by rewrite Hrun.
    + destruct (load_rejected self (mkManager p []) f w1 Hself Hfile Hacc)
        as (w' & -> & Hself' & _).
      split; [done|]. simpl.
      eexists. split; [exact Hself'|]. simpl. split; constructor.
  - assert (Hrun : load self w1 = (Returned (), note_error "File not found" w1)).
    { unfold load. unfold mbind at 1, Py_bind at 1.
      unfold the_manager at 1. py_unfold. rewrite lookup_insert_eq. simpl.
      by rewrite decide_True. }
    rewrite Hrun. split; [done|]. simpl. done.
Qed.

(** ** The theorems at concrete inputs *)

Lemma small_store_hooked : store_hooked small_store 0.
Proof.
  exists (mkManager "settings.json" [(1, 0%nat)]). split_and!.
  - reflexivity.
  - apply (bool_decide_unpack _). vm_compute. exact I.
  - constructor; [|constructor]. eexists. split_and!.
    + reflexivity.
    + apply constructed_to_object.
    + reflexivity.
Defined.


Lemma reply_history_bounded_witness :
  length (reply_history scenario_fetch scenario_M5 5) = 2%nat
  ∧ Z.of_nat (length (reply_history scenario_fetch scenario_M5 5)) < 5.
Proof.
  refine (proj2 (proj2 (proj2
            (reply_history_bounded scenario_fetch scenario_M5 5)))
            2%nat scenario_M3 _ _ _).
  - lia.
  - reflexivity.
  - left. unfold not_a_reply. simpl. discriminate.
Defined.



Lemma construction_never_saves_witness :
  ∃ r, (getitem 0 2 small_store).1 = Returned r
       ∧ save_calls (setattr r "model" (VStr "phi") (getitem 0 2 small_store).2).2
         = save_calls small_store ++ [0%nat].
Proof.
  refine (proj2 (proj2 (proj2 (proj2 construction_never_saves)))
            0%nat (mkManager "settings.json" [(1, 0%nat)]) 2 "model"%string
            (VStr "phi") small_store _ _ _).
  - reflexivity.
  - apply (bool_decide_unpack _). vm_compute. exact I.
  - apply (bool_decide_unpack _). vm_compute. exact I.
Defined.

(** * Further properties *)

(** ** Which message survives de-duplication, and where *)

Lemma get_elem_of_NoDup {K V} `{EqDecision K} (d : list (K * V)) k v :
  NoDup (PyDict.keys d) → (k, v) ∈ d → PyDict.get k d = Some v.
Proof.
  unfold PyDict.keys. induction d as [|[k' v'] d IH]; csimpl.
  - by intros _ ?%elem_of_nil.
  - intros [Hk Hnd]%NoDup_cons [[= -> ->]|Hin]%elem_of_cons.
    + by destruct (decide (k' = k')).
    + destruct (decide (k = k')) as [->|_]; [|by apply IH].
      exfalso. apply Hk. by apply (list_elem_of_fmap_2 fst) in Hin.
Qed.

Lemma last_filter_cons {A} (P : A → Prop) `{∀ x, Decision (P x)} x l :
  last (filter P (x :: l))
  = match last (filter P l) with
    | Some y => Some y
    | None => if decide (P x) then Some x else None
    end.
Proof.
  rewrite filter_cons. destruct (decide (P x)); [|by destruct (last _)].
  destruct (filter P l) as [|y l'] eqn:Hl; [done|].
  rewrite last_cons. by destruct (last (y :: l')).
Qed.

(** A lookup in a dict filled from a list finds the last value stored under
    the key. *)
Lemma get_store_all_messages (l : list Message) :
  ∀ acc k,
    PyDict.get k (PyDict.store_all acc ((λ msg, (msg_id msg, msg)) <$> l))
    = match last (filter (λ x, msg_id x = k) l) with
      | Some m => Some m
      | None => PyDict.get k acc
      end.
Proof.
  induction l as [|x l IH]; intros acc k; [done|].
  rewrite fmap_cons, store_all_cons, IH, last_filter_cons.
  destruct (last (filter _ l)); [done|].
  destruct (decide (msg_id x = k)) as [<-|Hne].
  - apply get_set_eq.
  - by apply get_set_ne.
Qed.

Lemma elem_of_distinct_messages l m :
  m ∈ distinct_messages l
  ↔ last (filter (λ x, msg_id x = msg_id m) l) = Some m.
Proof.
  unfold distinct_messages, PyDict.values, PyDict.of_pairs.
  pose proof (get_store_all_messages l [] (msg_id m)) as Hget. simpl in Hget.
  set (d := PyDict.store_all _ _) in *.
  assert (Hnd : NoDup (PyDict.keys d)) by apply of_pairs_NoDup_keys.
  assert (Hid : ∀ kv, kv ∈ d → msg_id kv.2 = kv.1).
  { intros kv Hkv. apply elem_of_of_pairs in Hkv.
    by apply list_elem_of_fmap in Hkv as (x & -> & _). }
  split.
  - intros ([k m'] & -> & Hin)%list_elem_of_fmap. simpl in *.
    pose proof (Hid _ Hin) as Hk. simpl in Hk. subst k.
    rewrite (get_elem_of_NoDup d _ _ Hnd Hin) in Hget.
    by destruct (last _).
  - intros Hlast. rewrite Hlast in Hget.
    apply get_Some_elem_of in Hget.
    by apply (list_elem_of_fmap_2 snd) in Hget.
Qed.

Lemma elem_of_assemble r h message m :
  m ∈ assemble r h message
  ↔ last (filter (λ x, msg_id x = msg_id m) (r ++ h ++ [message])) = Some m.
Proof.
  unfold assemble. rewrite (sort_by_Permutation created_at).
  apply elem_of_distinct_messages.
Qed.

Lemma trigger_in_assemble r h message : message ∈ assemble r h message.
Proof.
  apply elem_of_assemble.
  rewrite !filter_app, filter_cons_True by done. rewrite filter_nil.
  by rewrite app_assoc, last_snoc.
Qed.

(** X1. Of several candidates with one id, the assembled context keeps the
    one that comes last in the order reply chain, history window, trigger;
    so the trigger message itself is always part of the context. *)
Theorem assemble_keeps_last_candidate
    (message_replies message_history : list Message) (message : Message) :
  let candidates := message_replies ++ message_history ++ [message] in
  let out := assemble message_replies message_history message in
  (∀ m, m ∈ out
        ↔ last (filter (λ x, msg_id x = msg_id m) candidates) = Some m)
  ∧ message ∈ out.
Proof.
  simpl. split; [intros m; apply elem_of_assemble | apply trigger_in_assemble].
Qed.

(** ** Equal timestamps *)

Lemma filter_insert_by {A} (key : A → Z) (t : Z) (x : A) (l : list A) :
  filter (λ y, key y = t) (insert_by key x l)
  = if decide (key x = t) then x :: filter (λ y, key y = t) l
    else filter (λ y, key y = t) l.
Proof.
  induction l as [|y l IH]; simpl.
  - rewrite filter_cons, filter_nil. done.
  - destruct (decide (key x <= key y)) as [Hle|Hgt].
    + by rewrite filter_cons.
    + rewrite !(filter_cons _ y), IH.
      destruct (decide (key x = t)) as [Hx|Hx]; [|done].
      destruct (decide (key y = t)); [lia | done].
Qed.

Lemma filter_sort_by {A} (key : A → Z) (t : Z) (l : list A) :
  filter (λ y, key y = t) (sort_by key l) = filter (λ y, key y = t) l.
Proof.
  induction l as [|x l IH]; [done|]. simpl.
  rewrite filter_insert_by, filter_cons, IH. done.
Qed.

(** X2. The sort is stable: messages created at the same time come out in
    the order the de-duplicated list holds them, which is the order in which
    their ids first occur among the candidates. *)
Theorem assemble_ties_keep_dict_order
    (message_replies message_history : list Message) (message : Message) (t : Z) :
  filter (λ m, created_at m = t)
    (assemble message_replies message_history message)
  = filter (λ m, created_at m = t)
      (distinct_messages (message_replies ++ message_history ++ [message])).
Proof. apply filter_sort_by. Qed.

(** ** The size of the context *)

Lemma remove_dups_length (l : list Z) : (length (remove_dups l) ≤ length l)%nat.
Proof.
  induction l as [|x l IH]; simpl; [done|].
  destruct (decide_rel elem_of x l); simpl; lia.
Qed.

(** X3. The context has one message per distinct candidate id: at least the
    trigger, at most all candidates; with the walk as source of the reply
    chain, at most [reply_limit] ancestors, the history window and the
    trigger. *)
Theorem assemble_length
    (fetch_message : Z → option Message) (history : Z → Message → list Message)
    (reply_limit message_limit : Z) (message : Message)
    (message_replies message_history : list Message) :
  length (assemble message_replies message_history message)
  = length (remove_dups
              (msg_id <$> message_replies ++ message_history ++ [message]))
  ∧ (1 ≤ length (assemble message_replies message_history message)
       ≤ length message_replies + length message_history + 1)%nat
  ∧ (length (context_of fetch_message history reply_limit message_limit message)
     ≤ Z.to_nat reply_limit + length (history message_limit message) + 1)%nat.
Proof.
  assert (Hlen : ∀ r h,
    length (assemble r h message)
    = length (remove_dups (msg_id <$> r ++ h ++ [message]))).
  { intros r h. rewrite <- (length_fmap msg_id).
    apply Permutation_length, NoDup_Permutation.
    - unfold assemble. rewrite (sort_by_Permutation created_at).
      apply distinct_messages_NoDup.
    - apply NoDup_remove_dups.
    - intros i. rewrite elem_of_remove_dups.
      unfold assemble. rewrite (sort_by_Permutation created_at).
      apply distinct_messages_ids_iff. }
  assert (Hbound : ∀ r h,
    (1 ≤ length (assemble r h message) ≤ length r + length h + 1)%nat).
  { intros r h. split.
    - pose proof (trigger_in_assemble r h message) as Hin.
      destruct (assemble r h message); [|simpl; lia].
      by apply elem_of_nil in Hin.
    - rewrite Hlen.
      etrans; [apply remove_dups_length|].
      rewrite length_fmap, !length_app. simpl. lia. }
  split; [apply Hlen|]. split; [apply Hbound|].
  unfold context_of.
  etrans; [apply Hbound|].
  destruct (reply_loop_spec fetch_message (Z.to_nat reply_limit) reply_limit 0
              message) as (Hwalk & _); [lia|].
  unfold reply_history. replace (reply_limit - 0) with reply_limit in Hwalk by lia.
  lia.
Qed.

(** ** The walk as a prefix of the reply chain *)

Lemma reply_loop_chain fetch_message fuel :
  ∀ limit count m,
    reply_loop fetch_message fuel limit count m
    = chain fetch_message (fuel `min` Z.to_nat (limit - count)) m.
Proof.
  induction fuel as [|fuel IH]; intros limit count m; [done|].
  simpl reply_loop. destruct (decide (count >= limit)) as [Hge|Hlt].
  - by replace (Z.to_nat (limit - count)) with O by lia.
  - replace (Z.to_nat (limit - count))
      with (S (Z.to_nat (limit - (count + 1)))) by lia.
    rewrite <- Nat.succ_min_distr. simpl.
    destruct (resolve_reply fetch_message m) as [r|]; [|done].
    by rewrite IH.
Qed.

Lemma reply_history_chain fetch_message m limit :
  reply_history fetch_message m limit = chain fetch_message (Z.to_nat limit) m.
Proof.
  unfold reply_history. rewrite reply_loop_chain.
  replace (limit - 0) with limit by lia. by rewrite Nat.min_id.
Qed.

Lemma chain_take fetch_message n :
  ∀ n' m, (n ≤ n')%nat →
    chain fetch_message n m = take n (chain fetch_message n' m).
Proof.
  induction n as [|n IH]; intros n' m Hle; [done|].
  destruct n' as [|n']; [lia|]. simpl.
  destruct (resolve_reply fetch_message m) as [r|]; [|done].
  simpl. f_equal. apply IH. lia.
Qed.

Lemma chain_end fetch_message n :
  ∀ m, ∃ m',
    current_after fetch_message (length (chain fetch_message n m)) m = Some m'
    ∧ (length (chain fetch_message n m) = n
       ∨ resolve_reply fetch_message m' = None).
Proof.
  induction n as [|n IH]; intros m.
  - exists m. by split; [|left].
  - simpl. destruct (resolve_reply fetch_message m) as [r|] eqn:Hr.
    + destruct (IH r) as (m' & Hcur & Hend). exists m'. simpl. rewrite Hr.
      split; [done|]. destruct Hend; [left; lia | by right].
    + exists m. by split; [|right].
Qed.

Lemma chain_attached f1 f2 n :
  ∀ m, attached n m → chain f1 n m = chain f2 n m.
Proof.
  induction n as [|n IH]; intros m Hm; [done|]. simpl in *.
  unfold resolve_reply.
  destruct (decide (msg_type m ≠ MT_reply)); [done|].
  destruct (reference m) as [[mid [[r|]|]]|]; simpl; try done.
  - destruct (truthy_id mid); [|done]. f_equal. by apply IH.
  - by destruct (truthy_id mid).
Qed.

(** X4. The walk ends only for one of its stated reasons: standing on the
    message it reached last, it has either yielded [limit] messages or that
    message is not a reply, has no usable reference, or could not be
    resolved. *)
Theorem reply_history_stops_for_a_reason
    (fetch_message : Z → option Message) (message : Message) (limit : Z) :
  let yielded := reply_history fetch_message message limit in
  ∃ m,
    current_after fetch_message (length yielded) message = Some m
    ∧ (length yielded = Z.to_nat limit
       ∨ not_a_reply m ∨ no_reference m ∨ resolution_fails fetch_message m).
Proof.
  simpl. rewrite reply_history_chain.
  destruct (chain_end fetch_message (Z.to_nat limit) message)
    as (m & Hcur & Hend).
  exists m. split; [done|].
  destruct Hend as [?|Hnone]; [by left|]. right.
  by apply resolve_reply_None.
Qed.

(** X5. A smaller limit yields a prefix of what a larger limit yields, and a
    limit of zero or less yields nothing. *)
Theorem reply_history_prefix
    (fetch_message : Z → option Message) (message : Message) (limit limit' : Z) :
  limit <= limit' →
  reply_history fetch_message message limit
  = take (Z.to_nat limit) (reply_history fetch_message message limit')
  ∧ (limit <= 0 → reply_history fetch_message message limit = []).
Proof.
  intros Hle. rewrite !reply_history_chain. split.
  - apply chain_take. lia.
  - intros Hneg. by replace (Z.to_nat limit) with O by lia.
Qed.

Lemma reply_history_prefix_witness :
  reply_history scenario_fetch scenario_M5 1
  = take (Z.to_nat 1) (reply_history scenario_fetch scenario_M5 2)
  ∧ (1 <= 0 → reply_history scenario_fetch scenario_M5 1 = []).
Proof. apply (reply_history_prefix scenario_fetch scenario_M5 1 2). lia. Defined.

(** X6. [fetch_message] is consulted only for a reference without an
    attached message: when every reference within [limit] hops carries its
    resolved message or the deleted-message placeholder, the walk does not
    depend on what fetching would give; a placeholder ends it. *)
Theorem reply_history_uses_attached_messages
    (fetch1 fetch2 : Z → option Message) (message : Message) (limit : Z) :
  attached (Z.to_nat limit) message →
  reply_history fetch1 message limit = reply_history fetch2 message limit.
Proof. intros Hatt. rewrite !reply_history_chain. by apply chain_attached. Qed.

Lemma reply_history_uses_attached_messages_witness :
  reply_history scenario_fetch scenario_M4 1
  = reply_history (λ _, None) scenario_M4 1.
Proof.
  apply (reply_history_uses_attached_messages scenario_fetch (λ _, None)
           scenario_M4 1).
  simpl. exact I.
Defined.

(** ** Reporting a failed model call *)

(** X7. When the model call raises, the user is sent the text
    ["Error generating response: "] followed by the exception's text: as the
    reply itself when the exception's text has at most 1973 characters, as
    the file [response.txt] otherwise; the notice for an empty answer is
    never used. *)
Theorem model_failure_is_reported (e : string) :
  respond (response_text_of (ChatRaised e))
  = (if decide (String.length e ≤ 1973)%nat
     then Reply ("Error generating response: " +:+ e) None
     else Reply "Response was too long, uploaded as file:"
            (Some ("response.txt"%string, "Error generating response: " +:+ e)))
  ∧ respond (response_text_of (ChatRaised e)) ≠ Reply "No response generated." None.
Proof.
  assert (Hlen : String.length ("Error generating response: " +:+ e)
                 = (27 + String.length e)%nat) by done.
  assert (Hr : respond (response_text_of (ChatRaised e))
    = (if decide (String.length e ≤ 1973)%nat
       then Reply ("Error generating response: " +:+ e) None
       else Reply "Response was too long, uploaded as file:"
              (Some ("response.txt"%string, "Error generating response: " +:+ e)))).
  { simpl response_text_of. rewrite respond_nonempty by done.
    unfold MAX_LENGTH. rewrite Hlen.
    destruct (decide (String.length e ≤ 1973)%nat);
      destruct (decide (27 + String.length e ≤ 2000)%nat); done || lia. }
  split; [done|]. rewrite Hr.
  destruct (decide (String.length e ≤ 1973)%nat); [|done].
  by intros [=].
Qed.

(** ** The model request *)

Section RequestFacts.
Variable author : Message → User.
Variable attachments : Message → list Attachment.
Local Abbreviation convert := (to_ollama_message author attachments).
Local Abbreviation request_for := (build_request author attachments).


Lemma to_ollama_message_Some bot_user m om :
  convert bot_user m = Some om →
  role om = (if is_bot bot_user (author m) then "assistant" else "user")%string
  ∧ ∃ data, images om = Some data
      ∧ Forall2 (λ a image, read a = Some image)
          (filter (λ a, is_image a = true) (attachments m)) data.
Proof.
  unfold to_ollama_message.
  destruct (is_bot bot_user (author m));
    (destruct (mapM read (filter _ (attachments m))) as [data|] eqn:Hread;
     simpl; [|done]; intros [= <-]; simpl; split; [done|];
     exists data; split; [done|]; by apply mapM_Some).
Qed.



(** X9. The request handed to the model starts with the system entry, whose
    text is the fixed instruction, a line break and the guild's prompt, and
    continues with one entry per message of the context, in the same order:
    an [assistant] entry for a message of the bot itself, a [user] entry
    otherwise, with one image per image attachment (the system entry has
    no image list). So the model receives
    one more entry than there are distinct message ids among the
    candidates. *)
Theorem request_follows_context
    (bot_user : option User) (prompt : string)
    (message_replies message_history : list Message) (message : Message)
    (request : list OllamaMessage) :
  build_request author attachments bot_user prompt (assemble message_replies message_history message)
  = Some request →
  ∃ converted,
    request
    = mkOllamaMessage "system" (SYSTEM_PROMPT +:+ newline +:+ prompt) None
        :: converted
    ∧ Forall2
        (λ m om,
           role om
           = (if is_bot bot_user (author m) then "assistant" else "user")%string
           ∧ ∃ data, images om = Some data
               ∧ length data
                 = length (filter (λ a, is_image a = true) (attachments m)))
        (assemble message_replies message_history message) converted
    ∧ length request
      = S (length (remove_dups
                     (msg_id <$> message_replies ++ message_history ++ [message]))).
Proof.
  unfold build_request.
  destruct (mapM (convert bot_user) _) as [converted|] eqn:Hconv; [|done].
  simpl. intros [= <-]. exists converted. apply mapM_Some in Hconv.
  split_and!; [done | |].
  - eapply Forall2_impl; [exact Hconv|]. intros m om Hom.
    apply to_ollama_message_Some in Hom as (Hrole & data & Hdata & Himg).
    split; [done|]. exists data. split; [done|].
    symmetry. by eapply Forall2_length.
  - simpl. f_equal. rewrite <- (Forall2_length _ _ _ Hconv).
    rewrite <- (length_fmap msg_id).
    apply Permutation_length, NoDup_Permutation.
    + unfold assemble. rewrite (sort_by_Permutation created_at).
      apply distinct_messages_NoDup.
    + apply NoDup_remove_dups.
    + intros i. rewrite elem_of_remove_dups.
      unfold assemble. rewrite (sort_by_Permutation created_at).
      apply distinct_messages_ids_iff.
Qed.

Lemma remove_from_absent old s :
  is_substring old s = false → remove_from old 0 s = s.
Proof.
  induction s as [|a s IH]; [done|].
  simpl is_substring. intros [Hhere Hlater]%orb_false_elim.
  simpl remove_from. rewrite Hhere. by rewrite IH.
Qed.

(** X10. A message whose text, with the author's prefix for a user message,
    does not contain the bot's mention reaches the model unchanged: the
    text itself for the bot's own message, the author's mention, a colon, a
    space and the text otherwise. *)
Theorem content_without_bot_mention
    (bot : User) (m : Message) (om : OllamaMessage) :
  to_ollama_message author attachments (Some bot) m = Some om →
  let text :=
    if is_bot (Some bot) (author m) then msg_content m
    else mention (author m) +:+ ": " +:+ msg_content m in
  is_substring (mention bot) text = false →
  content om = text.
Proof.
  intros Hom. cbv zeta. intros Habsent. unfold to_ollama_message in Hom.
  destruct (is_bot (Some bot) (author m));
    (destruct (mapM read _); simpl in Hom; [|done]);
    injection Hom as <-; simpl; unfold str_remove;
    (destruct (decide (mention bot = EmptyString)); [done|]);
    by apply remove_from_absent.
Qed.
End RequestFacts.

Lemma request_follows_context_witness :
  ∃ converted,
    default []
      (build_request scenario_author scenario_attachments (Some scenario_bot)
         "Be brief."
         (assemble [scenario_M4; scenario_M3]
            [scenario_M1; scenario_M2; scenario_M3] scenario_M5))
    = mkOllamaMessage "system" (SYSTEM_PROMPT +:+ newline +:+ "Be brief.") None
        :: converted
    ∧ Forall2
        (λ m om,
           role om
           = (if is_bot (Some scenario_bot) (scenario_author m)
              then "assistant" else "user")%string
           ∧ ∃ data, images om = Some data
               ∧ length data
                 = length (filter (λ a, is_image a = true)
                             (scenario_attachments m)))
        (assemble [scenario_M4; scenario_M3]
           [scenario_M1; scenario_M2; scenario_M3] scenario_M5)
        converted
    ∧ length
        (default []
           (build_request scenario_author scenario_attachments
              (Some scenario_bot) "Be brief."
              (assemble [scenario_M4; scenario_M3]
                 [scenario_M1; scenario_M2; scenario_M3] scenario_M5)))
      = S (length (remove_dups
                     (msg_id <$> [scenario_M4; scenario_M3]
                                 ++ [scenario_M1; scenario_M2; scenario_M3]
                                 ++ [scenario_M5]))).
Proof.
  apply (request_follows_context scenario_author scenario_attachments
           (Some scenario_bot) "Be brief." [scenario_M4; scenario_M3]
           [scenario_M1; scenario_M2; scenario_M3] scenario_M5).
  vm_compute. reflexivity.
Defined.

Lemma content_without_bot_mention_witness :
  content (mkOllamaMessage "user" "<@7>: one" (Some [])) = "<@7>: one"%string.
Proof.
  apply (content_without_bot_mention scenario_author scenario_attachments
           scenario_bot scenario_M1
           (mkOllamaMessage "user" "<@7>: one" (Some []))).
  - vm_compute. reflexivity.
  - vm_compute. reflexivity.
Defined.

(** ** Lookups *)

(** X11. In a store made by its manager, a lookup never fails and never
    replaces an instance: looking the same guild up again, also after
    lookups of other guilds, returns the same instance, unchanged, and the
    second lookup changes nothing at all. *)
Theorem lookup_is_stable w self key key' :
  store_hooked w self →
  ∃ r w1 r' w2,
    getitem self key w = (Returned r, w1)
    ∧ getitem self key w1 = (Returned r, w1)
    ∧ getitem self key' w1 = (Returned r', w2)
    ∧ getitem self key w2 = (Returned r, w2)
    ∧ is_Some (objects w1 !! r)
    ∧ objects w2 !! r = objects w1 !! r.
Proof.
  intros Hhooked.
  destruct (store_hooked_getitem w self key Hhooked)
    as (r & w1 & mgr1 & Hget & Hhooked1 & Hself1 & Hr & _).
  destruct (store_hooked_lookup _ _ _ _ _ Hhooked1 Hself1 Hr) as (o & Ho & _).
  exists r, w1.
  assert (Hagain : getitem self key w1 = (Returned r, w1))
    by by apply (getitem_existing _ _ mgr1).
  destruct (PyDict.get key' (guild_settings mgr1)) as [r'|] eqn:Hget'.
  - exists r', w1. rewrite (getitem_existing w1 self mgr1 key' r') by done.
    split_and!; try done.
  - apply get_None in Hget'.
    rewrite (getitem_unseen w1 self mgr1 key') by done.
    eexists _, _. split_and!; try done.
    + eapply getitem_existing; [simpl; apply lookup_insert_eq|]. simpl.
      rewrite get_app_l; [done|].
      apply get_Some_elem_of in Hr. by apply (list_elem_of_fmap_2 fst) in Hr.
    + simpl. apply lookup_insert_ne. intros <-.
      pose proof (is_fresh (dom (objects w1))) as Hfresh.
      apply Hfresh. by apply elem_of_dom.
Qed.

Lemma lookup_is_stable_witness :
  ∃ r w1 r' w2,
    getitem 0 1 small_store = (Returned r, w1)
    ∧ getitem 0 1 w1 = (Returned r, w1)
    ∧ getitem 0 2 w1 = (Returned r', w2)
    ∧ getitem 0 1 w2 = (Returned r, w2)
    ∧ is_Some (objects w1 !! r)
    ∧ objects w2 !! r = objects w1 !! r.
Proof. apply (lookup_is_stable small_store 0 1 2). exact small_store_hooked. Defined.

(** X12. The lookup of a guild id the store does not have creates a new
    instance with that id and the default values, hooked to the manager,
    and puts it at the end of the store; nothing else in memory changes, and
    nothing is saved: the new guild reaches the file only with the next
    [save]. *)
Theorem lookup_creates_defaults w self mgr key :
  managers w !! self = Some mgr →
  key ∉ PyDict.keys (guild_settings mgr) →
  ∃ r w',
    getitem self key w = (Returned r, w')
    ∧ objects w !! r = None
    ∧ objects w' !! r
      = Some (to_object (default_settings key) (VFunc (SaveSettings self)))
    ∧ (∀ r0, r0 ≠ r → objects w' !! r0 = objects w !! r0)
    ∧ managers w' !! self
      = Some (mkManager (path mgr) (guild_settings mgr ++ [(key, r)]))
    ∧ files w' = files w
    ∧ save_calls w' = save_calls w.
Proof.
  intros Hself Hkey. rewrite (getitem_unseen _ _ mgr) by done.
  eexists _, _. split_and!; try done.
  - apply not_elem_of_dom, is_fresh.
  - simpl. apply lookup_insert_eq.
  - intros r0 Hr0. simpl. by apply lookup_insert_ne.
  - simpl. apply lookup_insert_eq.
Qed.

Lemma lookup_creates_defaults_witness :
  ∃ r w',
    getitem 0 2 small_store = (Returned r, w')
    ∧ objects small_store !! r = None
    ∧ objects w' !! r
      = Some (to_object (default_settings 2) (VFunc (SaveSettings 0)))
    ∧ (∀ r0, r0 ≠ r → objects w' !! r0 = objects small_store !! r0)
    ∧ managers w' !! 0%nat
      = Some (mkManager "settings.json" [(1, 0%nat); (2, r)])
    ∧ files w' = files small_store
    ∧ save_calls w' = save_calls small_store.
Proof.
  apply (lookup_creates_defaults small_store 0
           (mkManager "settings.json" [(1, 0%nat)]) 2).
  - reflexivity.
  - apply (bool_decide_unpack _). vm_compute. exact I.
Defined.

(** X13. [__setitem__] followed by a lookup of the same guild returns the
    instance that was put in; an existing guild keeps its place, a new one
    goes to the end, the other guilds are untouched, and nothing is saved. *)
Theorem setitem_then_lookup w self mgr key value :
  managers w !! self = Some mgr →
  ∃ w1 mgr1,
    setitem self key value w = (Returned (), w1)
    ∧ getitem self key w1 = (Returned value, w1)
    ∧ managers w1 !! self = Some mgr1
    ∧ PyDict.keys (guild_settings mgr1)
      = (if decide (key ∈ PyDict.keys (guild_settings mgr))
         then PyDict.keys (guild_settings mgr)
         else PyDict.keys (guild_settings mgr) ++ [key])
    ∧ (∀ key', key' ≠ key →
         PyDict.get key' (guild_settings mgr1)
         = PyDict.get key' (guild_settings mgr))
    ∧ objects w1 = objects w
    ∧ files w1 = files w
    ∧ save_calls w1 = save_calls w.
Proof.
  intros Hself. unfold setitem.
  rewrite (set_guild_settings_run _ _ mgr) by done.
  set (mgr1 := mkManager (path mgr) (PyDict.set key value (guild_settings mgr))).
  exists (set_managers <[self := mgr1]> w), mgr1. split_and!; try done.
  - apply (getitem_existing _ _ mgr1); [simpl; apply lookup_insert_eq|].
    simpl. apply get_set_eq.
  - simpl. apply lookup_insert_eq.
  - simpl. apply keys_set.
  - intros key' Hne. simpl. by apply get_set_ne.
Qed.

Lemma setitem_then_lookup_witness :
  ∃ w1 mgr1,
    setitem 0 7 0%nat small_store = (Returned (), w1)
    ∧ getitem 0 7 w1 = (Returned 0%nat, w1)
    ∧ managers w1 !! 0%nat = Some mgr1
    ∧ PyDict.keys (guild_settings mgr1) = [1; 7]
    ∧ (∀ key', key' ≠ 7 →
         PyDict.get key' (guild_settings mgr1) = PyDict.get key' [(1, 0%nat)])
    ∧ objects w1 = objects small_store
    ∧ files w1 = files small_store
    ∧ save_calls w1 = save_calls small_store.
Proof.
  apply (setitem_then_lookup small_store 0
           (mkManager "settings.json" [(1, 0%nat)]) 7 0%nat).
  reflexivity.
Defined.

(** ** Loading and saving when things go wrong *)

(** X14. When the backing file does not exist, creating the manager raises
    nothing: the store is empty, one error is logged, and no file is
    created. *)
Theorem missing_file_gives_empty_store p w :
  files w !! p = None →
  ∃ self w',
    SettingsManager_new p w = (Returned self, w')
    ∧ managers w' !! self = Some (mkManager p [])
    ∧ error_log w' = error_log w ++ ["File not found"%string]
    ∧ files w' = files w
    ∧ objects w' = objects w
    ∧ save_calls w' = save_calls w.
Proof.
  intros Hfile. unfold SettingsManager_new. py_unfold.
  set (self := fresh (dom (managers w))).
  set (w1 := set_managers <[self := mkManager p []]> w).
  assert (Hrun : load self w1 = (Returned (), note_error "File not found" w1)).
  { unfold load. unfold mbind at 1, Py_bind at 1.
    unfold the_manager at 1. py_unfold. rewrite lookup_insert_eq. simpl.
    by rewrite decide_True. }
  rewrite Hrun. eexists _, _. split_and!; try done.
  simpl. apply lookup_insert_eq.
Qed.

Lemma missing_file_gives_empty_store_witness :
  ∃ self w',
    SettingsManager_new "settings.json" small_store = (Returned self, w')
    ∧ managers w' !! self = Some (mkManager "settings.json" [])
    ∧ error_log w' = error_log small_store ++ ["File not found"%string]
    ∧ files w' = files small_store
    ∧ objects w' = objects small_store
    ∧ save_calls w' = save_calls small_store.
Proof.
  apply (missing_file_gives_empty_store "settings.json" small_store).
  reflexivity.
Defined.

(** X15. [save] never raises and never changes what is in memory; it can
    only change the file at its own path. When that path cannot be written,
    the files stay as they are and one error is logged. *)
Theorem save_is_not_fatal w self mgr :
  managers w !! self = Some mgr →
  ∃ w',
    save self w = (Returned (), w')
    ∧ objects w' = objects w
    ∧ managers w' = managers w
    ∧ save_calls w' = save_calls w ++ [self]
    ∧ (∀ p, p ≠ path mgr → files w' !! p = files w !! p)
    ∧ (path mgr ∈ read_only w →
       files w' = files w
       ∧ error_log w' = error_log w ++ ["Error saving settings"%string]).
Proof.
  intros Hself. rewrite (save_saved _ mgr) by done.
  eexists. split; [done|].
  destruct (saved_effects self mgr w) as (Ho & Hm & _ & Hs).
  split_and!; try done.
  - intros p Hp. unfold saved.
    destruct (serializable_of _ _); [|done].
    destruct (decide (path mgr ∈ read_only w)); [done|].
    destruct (json_dump _); simpl; by rewrite lookup_insert_ne.
  - intros Hro. unfold saved.
    destruct (serializable_of _ _); [|done].
    by rewrite decide_True.
Qed.

Lemma save_is_not_fatal_witness :
  ∃ w',
    save 0 small_store = (Returned (), w')
    ∧ objects w' = objects small_store
    ∧ managers w' = managers small_store
    ∧ save_calls w' = save_calls small_store ++ [0%nat]
    ∧ (∀ p, p ≠ "settings.json"%string → files w' !! p = files small_store !! p)
    ∧ ("settings.json"%string ∈ read_only small_store →
       files w' = files small_store
       ∧ error_log w' = error_log small_store ++ ["Error saving settings"%string]).
Proof.
  apply (save_is_not_fatal small_store 0 (mkManager "settings.json" [(1, 0%nat)])).
  reflexivity.
Defined.

(** ** What reaches the file *)

Lemma dict_factory_clean items :
  ("on_change"%string ∉ PyDict.keys (dict_factory items))
  ∧ Forall (λ kv, kv.2 ≠ VNone) (dict_factory items)
  ∧ (∀ k, k ∈ PyDict.keys (dict_factory items) → k ∈ items.*1)
  ∧ NoDup (PyDict.keys (dict_factory items)).
Proof.
  unfold dict_factory.
  set (kept := filter _ items).
  assert (Hkept : ∀ kv, kv ∈ PyDict.of_pairs kept →
            is_None kv.2 = false ∧ (kv.1 ∉ excluded) ∧ kv ∈ items).
  { intros kv Hkv%elem_of_of_pairs. apply list_elem_of_filter in Hkv.
    naive_solver. }
  split_and!.
  - intros (kv & Hk & Hkv)%list_elem_of_fmap.
    destruct (Hkept _ Hkv) as (_ & Hex & _). apply Hex. rewrite <- Hk. left.
  - apply Forall_forall. intros kv Hkv.
    destruct (Hkept _ Hkv) as (Hnone & _). by destruct (kv.2).
  - intros k (kv & -> & Hkv)%list_elem_of_fmap.
    destruct (Hkept _ Hkv) as (_ & _ & Hin).
    by apply (list_elem_of_fmap_2 fst).
  - apply of_pairs_NoDup_keys.
Qed.

Lemma mapM_slots_names (o : gmap string Value) (names : list string) items :
  mapM (λ name, (λ v, (name, v)) <$> o !! name) names = Some items →
  items.*1 = names.
Proof.
  intros Hitems%mapM_Some.
  induction Hitems as [|name [k v] names items Hx _ IH]; [done|].
  csimpl. destruct (o !! name); [|done]. simpl in Hx.
  injection Hx as <- _. by rewrite IH.
Qed.

Lemma asdict_clean o fs :
  asdict o = Some fs →
  ("on_change"%string ∉ PyDict.keys fs)
  ∧ Forall (λ kv, kv.2 ≠ VNone) fs
  ∧ Forall (λ k, k ∈ data_fields) (PyDict.keys fs)
  ∧ NoDup (PyDict.keys fs).
Proof.
  unfold asdict.
  destruct (mapM _ field_names) as [items|] eqn:Hitems; [|done].
  simpl. intros [= <-].
  destruct (dict_factory_clean items) as (Hoc & Hnone & Hsub & Hnd).
  split_and!; try done.
  apply Forall_forall. intros k Hk.
  pose proof (mapM_slots_names _ _ _ Hitems) as Hnames.
  specialize (Hsub k Hk). rewrite Hnames in Hsub.
  apply field_name_cases in Hsub as [? | Heq]; [done|]. subst k. by destruct Hoc.
Qed.

(** X16. What [save] serializes never holds the hook and never holds a
    [None]: every guild of the store gets an entry whose fields are data
    fields with a value other than [None], each at most once; when this can
    be written as JSON, it is the document on disk afterwards, under the
    guild ids written as decimal strings. *)
Theorem saved_entries_are_clean w self :
  store_hooked w self →
  ∃ mgr payload,
    managers w !! self = Some mgr
    ∧ serializable_of (objects w) (guild_settings mgr) = Some payload
    ∧ PyDict.keys payload = PyDict.keys (guild_settings mgr)
    ∧ Forall (λ entry,
                ("on_change"%string ∉ PyDict.keys entry.2)
                ∧ Forall (λ kv, kv.2 ≠ VNone) entry.2
                ∧ Forall (λ k, k ∈ data_fields) (PyDict.keys entry.2)
                ∧ NoDup (PyDict.keys entry.2))
             payload
    ∧ (path mgr ∉ read_only w →
       json_serializable (json_document payload) = true →
       files (save self w).2 !! path mgr
       = Some (Document
                 (VDict ((λ entry, (py_str entry.1, VDict entry.2)) <$> payload)))).
Proof.
  intros (mgr & Hself & Hnd & Hall).
  destruct (serializable_of_Some (objects w) (guild_settings mgr) Hnd)
    as (payload & Hser & Hkeys & Hpay).
  { eapply Forall_impl; [exact Hall|]. intros ? (? & ? & ? & _). eauto. }
  exists mgr, payload. split_and!; try done.
  - apply Forall_forall. intros [gid fs] Hin.
    assert (Hgid : gid ∈ PyDict.keys (guild_settings mgr)).
    { rewrite <- Hkeys. by apply (list_elem_of_fmap_2 fst) in Hin. }
    destruct (PyDict.get gid (guild_settings mgr)) as [r|] eqn:Hr;
      [|by apply get_None in Hr].
    destruct (Hpay gid r Hr) as (o & _ & Hfs).
    rewrite (get_elem_of_NoDup payload gid fs) in Hfs;
      [| by rewrite Hkeys | done].
    symmetry in Hfs. by apply asdict_clean in Hfs.
  - intros Hrw Hjson. rewrite (save_saved _ mgr) by done. unfold saved.
    rewrite Hser. rewrite decide_False by done.
    unfold json_dump. rewrite Hjson. simpl. rewrite lookup_insert_eq.
    do 2 f_equal. unfold json_document. f_equal.
    apply list_fmap_ext. by intros ? [gid fs] _.
Qed.

Lemma saved_entries_are_clean_witness :
  ∃ mgr payload,
    managers small_store !! 0%nat = Some mgr
    ∧ serializable_of (objects small_store) (guild_settings mgr) = Some payload
    ∧ PyDict.keys payload = PyDict.keys (guild_settings mgr)
    ∧ Forall (λ entry,
                ("on_change"%string ∉ PyDict.keys entry.2)
                ∧ Forall (λ kv, kv.2 ≠ VNone) entry.2
                ∧ Forall (λ k, k ∈ data_fields) (PyDict.keys entry.2)
                ∧ NoDup (PyDict.keys entry.2))
             payload
    ∧ (path mgr ∉ read_only small_store →
       json_serializable (json_document payload) = true →
       files (save 0 small_store).2 !! path mgr
       = Some (Document
                 (VDict ((λ entry, (py_str entry.1, VDict entry.2)) <$> payload)))).
Proof. apply (saved_entries_are_clean small_store 0). exact small_store_hooked. Defined.

(** ** Instances without a hook *)

Lemma bind_arguments_guild_only gid :
  bind_arguments [("guild_id"%string, VInt gid)]
  = Some [("guild_id", VInt gid);
          ("system_prompt", VStr "You are a helpful assistant.");
          ("model", VStr "llama3");
          ("required_role", VNone);
          ("reply_history", VInt 10);
          ("message_history", VInt 10);
          ("on_change", VNone)]%string.
Proof.
  unfold bind_arguments. rewrite decide_True; [done|].
  repeat constructor; by apply (bool_decide_unpack _).
Qed.

(** X17. Write-through belongs to the hook, not to the store: an instance
    constructed without [on_change] and put into the store with
    [__setitem__] is what later lookups return, and an assignment to it
    changes the instance but calls no [save] and leaves every file alone. *)
Theorem instance_without_hook_is_not_saved w self mgr gid key value :
  managers w !! self = Some mgr →
  key ∈ data_fields →
  ∃ r w1 w2 w3 o,
    GuildSettings_new [("guild_id"%string, VInt gid)] w = (Returned r, w1)
    ∧ setitem self gid r w1 = (Returned (), w2)
    ∧ getitem self gid w2 = (Returned r, w2)
    ∧ setattr r key value w2 = (Returned (), w3)
    ∧ objects w3 !! r = Some o
    ∧ o !! key = Some value
    ∧ save_calls w3 = save_calls w
    ∧ files w3 = files w.
Proof.
  intros Hself Hkey.
  set (r := fresh (dom (objects w))).
  set (o := object_of
              [("guild_id", VInt gid);
               ("system_prompt", VStr "You are a helpful assistant.");
               ("model", VStr "llama3");
               ("required_role", VNone);
               ("reply_history", VInt 10);
               ("message_history", VInt 10);
               ("on_change", VNone)]%string).
  set (w1 := set_objects <[r := o]> w).
  set (mgr2 := mkManager (path mgr) (PyDict.set gid r (guild_settings mgr))).
  set (w2 := set_managers <[self := mgr2]> w1).
  destruct (data_field_is_field key Hkey) as [Hfield Hne].
  exists r, w1, w2, (set_objects <[r := <[key := value]> o]> w2),
    (<[key := value]> o).
  split_and!; try done.
  - apply (GuildSettings_new_spec _ _ _ (bind_arguments_guild_only gid)).
  - unfold setitem. by rewrite (set_guild_settings_run w1 self mgr).
  - apply (getitem_existing _ _ mgr2); [simpl; apply lookup_insert_eq|].
    simpl. apply get_set_eq.
  - apply setattr_quiet; [simpl; apply lookup_insert_eq | done |].
    right. intros c. by unfold o, object_of; simpl; simplify_map_eq.
  - simpl. apply lookup_insert_eq.
  - apply lookup_insert_eq.
Qed.

Lemma instance_without_hook_is_not_saved_witness :
  ∃ r w1 w2 w3 o,
    GuildSettings_new [("guild_id"%string, VInt 5)] small_store = (Returned r, w1)
    ∧ setitem 0 5 r w1 = (Returned (), w2)
    ∧ getitem 0 5 w2 = (Returned r, w2)
    ∧ setattr r "model" (VStr "phi") w2 = (Returned (), w3)
    ∧ objects w3 !! r = Some o
    ∧ o !! "model"%string = Some (VStr "phi")
    ∧ save_calls w3 = save_calls small_store
    ∧ files w3 = files small_store.
Proof.
  apply (instance_without_hook_is_not_saved small_store 0
           (mkManager "settings.json" [(1, 0%nat)]) 5 "model" (VStr "phi")).
  - reflexivity.
  - apply (bool_decide_unpack _). vm_compute. exact I.
Defined.

(** ** What an accepted file becomes *)






Lemma object_of_snoc args k v :
  object_of (args ++ [(k, v)]) = <[k := v]> (object_of args).
Proof. unfold object_of. by rewrite foldl_app. Qed.

Lemma object_of_elem args name v :
  NoDup args.*1 → (name, v) ∈ args → object_of args !! name = Some v.
Proof.
  induction args as [|[k x] args IH] using rev_ind; [by intros _ ?%elem_of_nil|].
  rewrite fmap_app. simpl.
  intros (Hnd & Hk & _)%NoDup_app [Hin|Hlast%list_elem_of_singleton]%elem_of_app;
    rewrite object_of_snoc.
  - rewrite lookup_insert_ne; [by apply IH|]. intros <-.
    apply (Hk k); [|left]. by apply (list_elem_of_fmap_2 fst) in Hin.
  - injection Hlast as -> ->. apply lookup_insert_eq.
Qed.

Lemma bind_arguments_lookup kwargs args name dflt :
  bind_arguments kwargs = Some args →
  (name, dflt) ∈ fields →
  ∃ v, match PyDict.get name kwargs with Some v => Some v | None => dflt end = Some v
       ∧ object_of args !! name = Some v.
Proof.
  intros Hargs Hin.
  pose proof (bind_arguments_names _ _ Hargs) as Hnames.
  unfold bind_arguments in Hargs. case_decide; [|done].
  apply mapM_Some in Hargs.
  apply list_elem_of_lookup in Hin as [i Hi].
  destruct (Forall2_lookup_l _ _ _ _ _ Hargs Hi) as ([k v] & Hkv & Hf).
  simpl in Hf.
  destruct (match PyDict.get name kwargs with Some v0 => Some v0 | None => dflt end)
    as [v'|]; [|done].
  simpl in Hf. injection Hf as <- <-. exists v'. split; [done|].
  apply object_of_elem.
  - rewrite Hnames. by apply (bool_decide_unpack _).
  - by eapply list_elem_of_lookup_2.
Qed.

Lemma get_app_other (d : list (string * Value)) name hook :
  name ≠ "on_change"%string →
  PyDict.get name (d ++ [("on_change"%string, hook)]) = PyDict.get name d.
Proof.
  intros Hne. induction d as [|[k v] d IH]; simpl.
  - by destruct (decide (name = "on_change"%string)).
  - by destruct (decide (name = k)).
Qed.

(** X19. The instance built from an accepted entry takes every data field
    the entry names as it stands, whatever its type, and the declared
    default for every field the entry leaves out; its hook is the loading
    manager's. *)
Theorem entry_fields_or_defaults self d name :
  Forall (λ k, k ∈ data_fields) (PyDict.keys d) →
  is_Some (PyDict.get "guild_id"%string d) →
  name ∈ data_fields →
  entry_object self d !! name
  = Some (default (default_of name) (PyDict.get name d))
  ∧ entry_object self d !! "on_change"%string = Some (VFunc (SaveSettings self)).
Proof.
  intros Hkeys Hgid Hname.
  destruct (proj1 (kwargs_accepted d (VFunc (SaveSettings self)))
              (conj Hkeys Hgid)) as [Hoc [args Hargs]].
  unfold entry_object. rewrite Hargs. simpl. split.
  - assert (Hfield : ∃ dflt, (name, dflt) ∈ fields
              ∧ (dflt = Some (default_of name) ∨ name = "guild_id"%string)).
    { unfold data_fields in Hname.
      repeat (apply elem_of_cons in Hname as [Hn | Hname];
              [subst name; eexists; split;
               [unfold fields;
                repeat first [apply list_elem_of_here | apply list_elem_of_further]
               | first [by left | by right]]|]).
      by apply elem_of_nil in Hname. }
    destruct Hfield as (dflt & Hin & Hdflt).
    destruct (bind_arguments_lookup _ _ _ _ Hargs Hin) as (v & Hv & ->).
    f_equal. destruct (data_field_is_field name Hname) as [_ Hne].
    rewrite get_app_other in Hv by done.
    destruct (PyDict.get name d) as [v'|] eqn:Hget; simpl.
    + by injection Hv.
    + destruct Hdflt as [-> | ->]; [by injection Hv|].
      rewrite Hget in Hgid. by destruct Hgid.
  - destruct (bind_arguments_lookup _ _ "on_change"%string (Some VNone) Hargs)
      as (v & Hv & ->).
    { unfold fields.
      repeat first [apply list_elem_of_here | apply list_elem_of_further]. }
    rewrite get_app_r in Hv by done. simpl in Hv. by injection Hv as <-.
Qed.

Lemma entry_fields_or_defaults_witness :
  entry_object 0 [("guild_id", VInt 7); ("model", VInt 3)]%string !! "model"%string
  = Some (VInt 3)
  ∧ entry_object 0 [("guild_id", VInt 7); ("model", VInt 3)]%string
      !! "on_change"%string
    = Some (VFunc (SaveSettings 0)).
Proof.
  apply (entry_fields_or_defaults 0
           [("guild_id", VInt 7); ("model", VInt 3)]%string "model"%string).
  - apply (bool_decide_unpack _). vm_compute. exact I.
  - by eexists.
  - apply (bool_decide_unpack _). vm_compute. exact I.
Defined.

(** ** The role check and the settings commands *)

Lemma bind_returned {A B} (m : Py A) (f : A → Py B) w a w' :
  m w = (Returned a, w') → (m ≫= f) w = f a w'.
Proof. intros Hm. unfold mbind, Py_bind. by rewrite Hm. Qed.

Lemma bind_raised {A B} (m : Py A) (f : A → Py B) w e w' :
  m w = (Raised e, w') → (m ≫= f) w = (Raised e, w').
Proof. intros Hm. unfold mbind, Py_bind. by rewrite Hm. Qed.

Lemma get_slot_world self key w : (get_slot self key w).2 = w.
Proof.
  unfold get_slot. py_unfold.
  destruct (objects w !! self) as [o|]; [|done]. simpl.
  by destruct (o !! key).
Qed.

Lemma get_slot_run self key w o v :
  objects w !! self = Some o → o !! key = Some v →
  get_slot self key w = (Returned v, w).
Proof. intros Ho Hv. unfold get_slot. py_unfold. by rewrite Ho, Hv. Qed.


(** X20. The role check never returns [False]: it returns [True], raises
    [CheckFailure], or raises another exception; it never calls [save] and
    leaves every file as it is. Without a guild, or for a user who is not a
    member, it raises [ValueError] before the store is touched. *)
Theorem role_check_never_returns_false
    (float_eq_int : string → Z → bool) (client : nat)
    (interaction : Interaction) (w : World) :
  (has_required_role float_eq_int client interaction w).1 ≠ CheckReturned false
  ∧ no_save w (has_required_role float_eq_int client interaction w).2
  ∧ (guild interaction = None ∨ member_roles interaction = None →
     has_required_role float_eq_int client interaction w
     = (CheckRaised ValueError, w)).
Proof.
  unfold has_required_role.
  destruct (guild interaction) as [gid|], (member_roles interaction) as [roles|];
    try (split_and!; [done | apply no_save_refl | done]).
  pose proof (getitem_no_save client gid w) as Hquiet.
  destruct (getitem client gid w) as [[config|e] w1] eqn:Hget.
  - rewrite (bind_returned _ _ _ _ _ Hget).
    pose proof (get_slot_world config "required_role" w1) as Hsame.
    destruct (get_slot config "required_role" w1) as [[required|e] w2];
      simpl in Hsame; subst w2.
    + destruct (is_None required || existsb _ roles);
        (split_and!; [done | done | by intros [?|?]]).
    + split_and!; [done | done | by intros [?|?]].
  - rewrite (bind_raised _ _ _ _ _ Hget).
    split_and!; [done | done | by intros [?|?]].
Qed.

(** X21. In a guild the store has not seen, every member passes the role
    check, whatever roles they hold; the check appends the guild to the
    store with the default settings, and this new entry is not written to
    the file. *)
Theorem role_check_unseen_guild
    (float_eq_int : string → Z → bool) (client : nat) (gid : Z)
    (roles : list Z) (w : World) (mgr : Manager) :
  managers w !! client = Some mgr →
  gid ∉ PyDict.keys (guild_settings mgr) →
  ∃ w' mgr' r,
    has_required_role float_eq_int client
      (mkInteraction (Some gid) (Some roles)) w
    = (CheckReturned true, w')
    ∧ managers w' !! client = Some mgr'
    ∧ guild_settings mgr' = guild_settings mgr ++ [(gid, r)]
    ∧ objects w !! r = None
    ∧ objects w' !! r
      = Some (to_object (default_settings gid) (VFunc (SaveSettings client)))
    ∧ files w' = files w
    ∧ save_calls w' = save_calls w.
Proof.
  intros Hself Hnew.
  pose proof (getitem_unseen w client mgr gid Hself Hnew) as Hget.
  set (r := fresh (dom (objects w))) in *.
  eexists _, _, r. unfold has_required_role. simpl.
  rewrite (bind_returned _ _ _ _ _ Hget).
  erewrite get_slot_run;
    [ | simpl; apply lookup_insert_eq | by unfold to_object; simplify_map_eq ].
  simpl. split_and!;
    first [ done | apply lookup_insert_eq | apply not_elem_of_dom, is_fresh ].
Qed.

Lemma role_check_unseen_guild_witness :
  ∃ w' mgr' r,
    has_required_role (λ _ _, false) 0%nat
      (mkInteraction (Some 2) (Some [])) small_store
    = (CheckReturned true, w')
    ∧ managers w' !! 0%nat = Some mgr'
    ∧ guild_settings mgr' = [(1, 0%nat)] ++ [(2, r)]
    ∧ objects small_store !! r = None
    ∧ objects w' !! r
      = Some (to_object (default_settings 2) (VFunc (SaveSettings 0)))
    ∧ files w' = files small_store
    ∧ save_calls w' = save_calls small_store.
Proof.
  apply (role_check_unseen_guild (λ _ _, false) 0%nat 2 [] small_store
           (mkManager "settings.json" [(1, 0%nat)])).
  - reflexivity.
  - apply (bool_decide_unpack _). vm_compute. exact I.
Defined.






(** ** Model autocompletion *)

Section AutocompleteFacts.
Context {Time : Type}.
Variable expired : Time → Time → bool.
Variable lower : string → string.
Local Abbreviation matches current :=
  (λ choice : string * string,
     is_substring (lower current) (lower choice.1) = true).

(** X24. Whatever the clock and the model server say, the choices returned
    are taken, in order, from the list cached before the call: they are at
    most 25, and each contains the typed text when case is ignored. So a
    call that refreshes the cache does not yet show the models it fetched,
    and the first call ever returns nothing. *)
Theorem autocomplete_answers_from_old_cache
    (now : Time) (listing : option (list (option string))) (current : string)
    (cache : Time * list (string * string)) :
  (model_autocomplete expired lower now listing current cache).1
    `sublist_of` cache.2
  ∧ (length (model_autocomplete expired lower now listing current cache).1
     ≤ 25)%nat
  ∧ Forall (λ choice, is_substring (lower current) (lower choice.1) = true)
      (model_autocomplete expired lower now listing current cache).1
  ∧ (cache.2 = [] →
     (model_autocomplete expired lower now listing current cache).1 = []).
Proof.
  destruct cache as [last_fetch_time cached_models]. unfold model_autocomplete.
  set (matching := take 25 (filter _ cached_models)).
  assert (Hsub : matching `sublist_of` cached_models).
  { unfold matching. etrans; [apply sublist_take | apply sublist_filter]. }
  assert (Hlen : (length matching ≤ 25)%nat).
  { unfold matching. rewrite length_take. lia. }
  assert (Hall : Forall (matches current) matching).
  { unfold matching. apply Forall_take, Forall_forall.
    by intros x [? _]%list_elem_of_filter. }
  assert (Hnil : cached_models = [] → matching = []).
  { intros Heq. apply sublist_nil_r. by rewrite <- Heq. }
  simpl. destruct (expired now last_fetch_time); [destruct listing|]; simpl;
    split_and!; try done; try apply sublist_nil_l; simpl; lia.
Qed.

(** X25. A call made once the cache has expired replaces the cache by the
    models the server lists, those without a name left out, or by the empty
    list when listing them fails; the next call, if it comes before that
    cache expires, answers from this new list with its first 25 matches and
    keeps the cache. After a failed refresh it therefore returns nothing,
    although models were cached before. *)
Theorem autocomplete_refresh_shows_on_next_call
    (now now' : Time) (listing listing' : option (list (option string)))
    (current current' : string) (cache : Time * list (string * string)) :
  expired now cache.1 = true →
  expired now' now = false →
  let fetched := default [] (choices_of <$> listing) in
  (model_autocomplete expired lower now listing current cache).2 = (now, fetched)
  ∧ model_autocomplete expired lower now' listing' current'
      (model_autocomplete expired lower now listing current cache).2
    = (take 25
         (filter (λ choice, is_substring (lower current') (lower choice.1) = true)
            fetched),
       (now, fetched))
  ∧ Forall (λ choice, choice.1 = choice.2 ∧ Some choice.1 ∈ default [] listing)
      fetched.
Proof.
  intros Hexpired Hfresh fetched. destruct cache as [last_fetch_time cached].
  simpl in Hexpired.
  assert (Hcache : (model_autocomplete expired lower now listing current
                      (last_fetch_time, cached)).2
                   = (now, fetched)).
  { unfold model_autocomplete. rewrite Hexpired. by destruct listing. }
  split_and!; [done | |].
  - rewrite Hcache. unfold model_autocomplete. by rewrite Hfresh.
  - unfold fetched. destruct listing as [models|]; simpl; [|done].
    apply Forall_forall. intros [name value] Hin. unfold choices_of in Hin.
    apply list_elem_of_omap in Hin as (m & Hm & Heq).
    destruct m as [n|]; simpl in Heq; [|done]. by injection Heq as <- <-.
Qed.

End AutocompleteFacts.

Lemma autocomplete_refresh_shows_on_next_call_witness :
  (model_autocomplete scenario_expired id 20 scenario_listing "l" (0, [])).2
  = (20, default [] (choices_of <$> scenario_listing))
  ∧ model_autocomplete scenario_expired id 25 None "ph"
      (model_autocomplete scenario_expired id 20 scenario_listing "l" (0, [])).2
    = (take 25
         (filter (λ choice : string * string,
                    is_substring (id "ph") (id choice.1) = true)
            (default [] (choices_of <$> scenario_listing))),
       (20, default [] (choices_of <$> scenario_listing)))
  ∧ Forall (λ choice : string * string,
              choice.1 = choice.2
              ∧ Some choice.1 ∈ default [] scenario_listing)
      (default [] (choices_of <$> scenario_listing)).
Proof.
  apply (autocomplete_refresh_shows_on_next_call scenario_expired id 20 25
           scenario_listing None "l" "ph" (0, [])).
  - reflexivity.
  - reflexivity.
Defined.
